(** * swarm-cronjob: the job registry, the reconciler and the completion waiter

    A shallow embedding of [internal/app] (type [SwarmCronjob] with [Run],
    [crudJob], [removeJob], [RunJobByEvent], [Tasks], [WaitForEnd]), of the
    HTTP handler of [internal/eventservice] and of [TaskLogs] and
    [normalizeImage] of [internal/docker], with the properties of the
    specification stated over it.

    Conventions.
    - A Go pair [(v, err)] is a Rocq pair whose second component is an
      [option error] ([None] is [nil]).
    - The Docker daemon, the wall clock and the worker that scales a service
      are outside the program: they are reached through the interface
      [Docker W] over an abstract world [W], threaded through every call.
    - [time.ParseDuration] and the cron expression parser are library
      functions; the embedding is parametric in them ([GoLib]).
    - Every log call that emits a line and every [Job.Run()] issued by the
      program is appended to a trace, so that "logged" and "never invoked"
      are statements about that trace. *)

From Stdlib Require Import ZArith String Ascii List Bool Lia.
From stdpp Require Import base gmap list strings.
From Stdlib Require DecimalString.

Local Open Scope Z_scope.

(** ** Errors *)

(** A Go [error] is represented by its message ([err.Error()]);
    [errors.New] builds one from a string. *)
Definition error := string.

Module errors.
Definition New (msg : string) : error := msg.
End errors.

(** ** strconv (Go standard library), as called by [crudJob] *)

Module strconv.

Inductive NumError := ErrSyntax | ErrRange.

(** [strconv.ParseBool]: on failure the returned value is [false]. *)
Definition ParseBool (str : string) : bool * option NumError :=
  if (String.eqb str "1" || String.eqb str "t" || String.eqb str "T"
      || String.eqb str "true" || String.eqb str "TRUE"
      || String.eqb str "True")%bool
  then (true, None)
  else if (String.eqb str "0" || String.eqb str "f" || String.eqb str "F"
      || String.eqb str "false" || String.eqb str "FALSE"
      || String.eqb str "False")%bool
  then (false, None)
  else (false, Some ErrSyntax).

Definition maxUint64 : Z := 2 ^ 64 - 1.

(** The smallest number such that [cutoff * 10 > maxUint64]. *)
Definition cutoff : Z := maxUint64 / 10 + 1.

Definition byte_of (c : ascii) : Z := Z.of_N (N_of_ascii c).

(** [lower(c)] is [c | ('x' - 'X')]. *)
Definition lower (c : Z) : Z := Z.lor c 32.

(** The digit loop of [strconv.ParseUint(s, 10, 64)]; [n] is the uint64
    accumulator, its additions taken modulo [2 ^ 64]. *)
Fixpoint parseUintLoop (s : string) (n : Z) : Z * option NumError :=
  match s with
  | EmptyString => (n, None)
  | String ch rest =>
      let c := byte_of ch in
      if (48 <=? c) && (c <=? 57) then
        let d := c - 48 in
        if 10 <=? d then (0, Some ErrSyntax)
        else if cutoff <=? n then (maxUint64, Some ErrRange)
        else
          let n10 := (n * 10) mod 2 ^ 64 in
          let n1 := (n10 + d) mod 2 ^ 64 in
          if (n1 <? n10) || (maxUint64 <? n1) then (maxUint64, Some ErrRange)
          else parseUintLoop rest n1
      else if (97 <=? lower c) && (lower c <=? 122) then
        let d := lower c - 97 + 10 in
        if 10 <=? d then (0, Some ErrSyntax)
        else (0, Some ErrSyntax)
      else (0, Some ErrSyntax)
  end.

(** [strconv.ParseUint(s, 10, 64)]. *)
Definition ParseUint (s : string) : Z * option NumError :=
  match s with
  | EmptyString => (0, Some ErrSyntax)
  | _ => parseUintLoop s 0
  end.

End strconv.

(** ** model.Job, model.ServiceInfo, model.TaskInfo

    The package internal/model is known through the fields the program
    reads and writes. *)

(** Modelled from the spec: [model.Job], the JobSpec of the specification,
    under the field names [crudJob] assigns; [EventTimeout] holds the raw
    label, parsed again by the waiter. *)
Record Job := mkJob {
  Name : string;
  Enable : bool;
  Schedule : string;
  SkipRunning : bool;
  Replicas : Z;              (* uint64 *)
  EventRun : bool;
  EventRunKey : string;
  EventTimeout : string;
  RegistryAuth : bool }.

Definition setEnable (b : bool) (j : Job) : Job :=
  mkJob (Name j) b (Schedule j) (SkipRunning j) (Replicas j) (EventRun j)
        (EventRunKey j) (EventTimeout j) (RegistryAuth j).
Definition setSchedule (s : string) (j : Job) : Job :=
  mkJob (Name j) (Enable j) s (SkipRunning j) (Replicas j) (EventRun j)
        (EventRunKey j) (EventTimeout j) (RegistryAuth j).
Definition setSkipRunning (b : bool) (j : Job) : Job :=
  mkJob (Name j) (Enable j) (Schedule j) b (Replicas j) (EventRun j)
        (EventRunKey j) (EventTimeout j) (RegistryAuth j).
Definition setReplicas (n : Z) (j : Job) : Job :=
  mkJob (Name j) (Enable j) (Schedule j) (SkipRunning j) n (EventRun j)
        (EventRunKey j) (EventTimeout j) (RegistryAuth j).
Definition setEventRun (b : bool) (j : Job) : Job :=
  mkJob (Name j) (Enable j) (Schedule j) (SkipRunning j) (Replicas j) b
        (EventRunKey j) (EventTimeout j) (RegistryAuth j).
Definition setEventRunKey (s : string) (j : Job) : Job :=
  mkJob (Name j) (Enable j) (Schedule j) (SkipRunning j) (Replicas j)
        (EventRun j) s (EventTimeout j) (RegistryAuth j).
Definition setEventTimeout (s : string) (j : Job) : Job :=
  mkJob (Name j) (Enable j) (Schedule j) (SkipRunning j) (Replicas j)
        (EventRun j) (EventRunKey j) s (RegistryAuth j).
Definition setRegistryAuth (b : bool) (j : Job) : Job :=
  mkJob (Name j) (Enable j) (Schedule j) (SkipRunning j) (Replicas j)
        (EventRun j) (EventRunKey j) (EventTimeout j) b.

(** Modelled from the spec: [model.ServiceInfo], a service name with its
    labels. [service.Labels] is a Go map ranged over in an unspecified
    order; a service description carries the sequence of pairs as [range]
    yields them, so every statement below holds whatever the order is. *)
Record ServiceInfo := mkService {
  svName : string;
  svLabels : list (string * string) }.

(** [swarm.TaskState]. *)
Inductive TaskState :=
  | TaskStateNew | TaskStateAllocated | TaskStatePending | TaskStateAssigned
  | TaskStateAccepted | TaskStatePreparing | TaskStateReady
  | TaskStateStarting | TaskStateRunning | TaskStateComplete
  | TaskStateShutdown | TaskStateFailed | TaskStateRejected
  | TaskStateRemove | TaskStateOrphaned.

(** Modelled from the spec: [model.TaskInfo], the TaskSnapshot of the
    specification: an identifier with the status of the task. *)
Record TaskInfo := mkTask {
  tkID : string;
  tkState : TaskState;       (* Status.State *)
  tkErr : string }.          (* Status.Err *)

(** ** The trace of observable actions *)

Inductive Level := Debug | Info | Warn | Error.

Inductive Event :=
  | Log (lvl : Level) (service : string) (msg : string)
  | JobRun (j : Job).

Definition isJobRun (e : Event) : bool :=
  match e with JobRun _ => true | Log _ _ _ => false end.

(** Number of [Job.Run()] invocations recorded in a trace. *)
Definition runCount (tr : list Event) : nat := length (filter isJobRun tr).

(** ** Library functions the embedding is parametric in *)

Class GoLib := {
  (** [time.ParseDuration]: [Some d] is [(d, nil)] with [d] in nanoseconds,
      [None] is [(0, err)]. *)
  time_ParseDuration : string -> option Z;
  (** The cron parser configured in [New]: [None] when the expression is
      accepted, the parse error otherwise. *)
  cron_Parse : string -> option error;
  (** [time.ParseDuration("")] fails with "invalid duration". *)
  time_ParseDuration_empty : time_ParseDuration "" = None }.

(** ** robfig/cron: entries, AddJob, Remove, Entry

    The part of the cron engine the program drives. Identifiers are handed
    out by a counter ([EntryID] is a Go int, taken unbounded here). Once the
    scheduler runs, additions and removals go through its run loop, with the
    same effect on the entries; their order in the list plays no role, the
    identifiers being distinct. *)

Module Cron.

(** An entry keeps the expression its schedule was parsed from and the
    job; [EJob = None] is the nil [Job] of the zero [Entry]. *)
Record Entry := mkEntry {
  ID : Z;
  Spec : string;
  EJob : option Job }.

Record t := mkCron {
  entries : list Entry;
  nextID : Z }.

Definition New : t := mkCron [] 0.

Definition AddJob `{GoLib} (spec : string) (cmd : Job) (c : t)
  : (Z * option error) * t :=
  match cron_Parse spec with
  | Some err => ((0, Some err), c)
  | None =>
      let id := nextID c + 1 in
      ((id, None), mkCron (entries c ++ [mkEntry id spec (Some cmd)]) id)
  end.

Definition Remove (id : Z) (c : t) : t :=
  mkCron (filter (fun e => negb (ID e =? id)) (entries c)) (nextID c).

Definition zeroEntry : Entry := mkEntry 0 "" None.

(** [Cron.Entry(id)]: the entry with that identifier, or the zero entry. *)
Definition Entry_ (id : Z) (c : t) : Entry :=
  match find (fun e => id =? ID e) (entries c) with
  | Some e => e
  | None => zeroEntry
  end.

End Cron.

(** ** The outside world: docker.Client, the clock, the worker *)

Class Docker (W : Type) := {
  (** [docker.Client.Service(name)]. *)
  docker_Service : string -> W -> (ServiceInfo + error) * W;
  (** [docker.Client.TaskList(service)]: the Go pair as returned. *)
  docker_TaskList : string -> W -> (list TaskInfo * option error) * W;
  (** The daemon's [TaskLogs] stream read to its end: the text, or the
      error of the request or of the read. *)
  api_TaskLogs : string -> W -> (string + error) * W;
  (** What [worker.Client.Run()] does to the cluster. *)
  worker_Run : Job -> W -> W;
  (** The monotonic clock, in nanoseconds. *)
  time_Now : W -> Z;
  (** [time.Sleep(d)]. *)
  time_Sleep : Z -> W -> W }.

(** [dockerClient.TaskLogs] of internal/docker/client.go. *)
Definition docker_TaskLogs `{Docker W} (taskid : string) (w : W)
  : (string * option error) * W :=
  match api_TaskLogs taskid w with
  | (inr err, w') => (("", Some err), w')
  | (inl text, w') => ((text, None), w')
  end.

(** ** SwarmCronjob *)

Record SwarmCronjob := mkSC {
  cron : Cron.t;
  jobs : gmap string Z }.

(** The program state: the [SwarmCronjob] object, the world it talks to and
    the trace emitted so far. *)
Record Sys (W : Type) := mkSys {
  sc : SwarmCronjob;
  world : W;
  trace : list Event }.
Arguments mkSys {W} _ _ _.
Arguments sc {W} _.
Arguments world {W} _.
Arguments trace {W} _.

(** [New], once the Docker client is connected. *)
Definition New {W} (w : W) : Sys W := mkSys (mkSC Cron.New ∅) w [].

Definition removeJob (serviceName : string) (id : Z) (s : SwarmCronjob)
  : SwarmCronjob :=
  mkSC (Cron.Remove id (cron s)) (delete serviceName (jobs s)).

Definition cannotParse (service labelValue labelKey : string) : Event :=
  Log Error service
      ("Cannot parse " +:+ labelValue +:+ " value of label " +:+ labelKey).

Definition logIfErr {E} (err : option E) (ev : Event) : list Event :=
  match err with Some _ => [ev] | None => [] end.

(** The [switch labelKey] of the loop "Seek swarm.cronjob labels" of
    [crudJob]: the job after the case, or [None] for the [return false, nil]
    of the scale-down case; the second component is what the case logs. *)
Definition seekLabel `{GoLib} (service labelKey labelValue : string) (j : Job)
  : option Job * list Event :=
  if String.eqb labelKey "swarm.cronjob.enable" then
    let '(v, err) := strconv.ParseBool labelValue in
    (Some (setEnable v j),
     logIfErr err (cannotParse service labelValue labelKey))
  else if String.eqb labelKey "swarm.cronjob.schedule" then
    (Some (setSchedule labelValue j), [])
  else if String.eqb labelKey "swarm.cronjob.event.enable" then
    let '(v, err) := strconv.ParseBool labelValue in
    (Some (setEventRun v j),
     logIfErr err (cannotParse service labelValue labelKey))
  else if String.eqb labelKey "swarm.cronjob.event.key" then
    (Some (setEventRunKey labelValue j), [])
  else if String.eqb labelKey "swarm.cronjob.event.timeout" then
    (Some (setEventTimeout labelValue j),
     match time_ParseDuration labelValue with
     | None => [cannotParse service labelValue labelKey]
     | Some _ => []
     end)
  else if String.eqb labelKey "swarm.cronjob.skip-running" then
    let '(v, err) := strconv.ParseBool labelValue in
    (Some (setSkipRunning v j),
     logIfErr err (cannotParse service labelValue labelKey))
  else if String.eqb labelKey "swarm.cronjob.replicas" then
    let '(v, err) := strconv.ParseUint labelValue in
    (Some (setReplicas v j),
     match err with
     | Some _ => [cannotParse service labelValue labelKey]
     | None =>
         if v <? 1 then
           [Log Error service
              (labelKey +:+ " must be greater than or equal to one")]
         else []
     end)
  else if String.eqb labelKey "swarm.cronjob.registry-auth" then
    let '(v, err) := strconv.ParseBool labelValue in
    (Some (setRegistryAuth v j),
     logIfErr err (cannotParse service labelValue labelKey))
  else if String.eqb labelKey "swarm.cronjob.scaledown" then
    if String.eqb labelValue "true" then
      (None, [Log Debug service "Scale down detected. Skipping cronjob"])
    else (Some j, [])
  else (Some j, []).

(** The loop over [service.Labels]. *)
Fixpoint seekLabels `{GoLib} (service : string)
    (labels : list (string * string)) (j : Job) : option Job * list Event :=
  match labels with
  | [] => (Some j, [])
  | (labelKey, labelValue) :: rest =>
      match seekLabel service labelKey labelValue j with
      | (Some j', out) =>
          let '(r, out') := seekLabels service rest j' in (r, out ++ out')
      | (None, out) => (None, out)
      end
  end.

(** The worker [crudJob] starts from. *)
Definition newWorkerJob (service : ServiceInfo) : Job :=
  mkJob (svName service) false "" false 1 false "" "" false.

(** [crudJob] adds, updates or removes the cron job of a service. *)
Definition crudJob `{GoLib} `{Docker W} (serviceName : string) (s : Sys W)
  : (bool * option error) * Sys W :=
  (* Find existing job *)
  let found := jobs (sc s) !! serviceName in
  (* Check service exists *)
  let '(r, w) := docker_Service serviceName (world s) in
  match r with
  | inr _ =>
      match found with
      | Some jobID =>
          ((true, None),
           mkSys (removeJob serviceName jobID (sc s)) w
                 (trace s ++ [Log Info serviceName "Remove cronjob"]))
      | None =>
          ((false, None),
           mkSys (sc s) w
                 (trace s ++ [Log Debug serviceName
                                "Service does not exist (removed)"]))
      end
  | inl service =>
      match seekLabels (svName service) (svLabels service)
                       (newWorkerJob service) with
      | (None, out) => ((false, None), mkSys (sc s) w (trace s ++ out))
      | (Some job, out) =>
          (* Disabled or non-cron service *)
          if negb (Enable job) then
            match found with
            | Some jobID =>
                ((true, None),
                 mkSys (removeJob serviceName jobID (sc s)) w
                       (trace s ++ out
                          ++ [Log Info (svName service) "Disable cronjob"]))
            | None =>
                ((false, None),
                 mkSys (sc s) w
                       (trace s ++ out
                          ++ [Log Debug (svName service) "Cronjob disabled"]))
            end
          else
            (* Add/Update job *)
            let '(sc1, ev) :=
              match found with
              | Some jobID =>
                  (removeJob serviceName jobID (sc s),
                   Log Debug (svName service)
                       ("Update cronjob with schedule " +:+ Schedule job))
              | None =>
                  (sc s,
                   Log Info (svName service)
                       ("Add cronjob with schedule " +:+ Schedule job))
              end in
            let tr := trace s ++ out ++ [ev] in
            match Cron.AddJob (Schedule job) job (cron sc1) with
            | ((_, Some err), c) => ((false, Some err), mkSys (mkSC c (jobs sc1)) w tr)
            | ((jobID, None), c) =>
                ((true, None),
                 mkSys (mkSC c (<[serviceName := jobID]> (jobs sc1))) w tr)
            end
      end
  end.

(** ** Outcomes of calls that may panic or loop *)

Inductive Outcome (A : Type) :=
  | Returns (a : A)
  | Panics           (* a run-time panic: nil dereference, failed assertion *)
  | OutOfFuel.       (* the loop was cut by the step bound of the model *)
Arguments Returns {A} _.
Arguments Panics {A}.
Arguments OutOfFuel {A}.

(** The job of [sc.cron.Entry(jobID)] asserted to be a worker client: the
    type assertion panics on the nil [Job] of the zero entry. *)
Definition workerOfEntry (jobID : Z) (s : SwarmCronjob) : Outcome Job :=
  match Cron.EJob (Cron.Entry_ jobID (cron s)) with
  | Some wc => Returns wc
  | None => Panics
  end.

Definition logTo {W} (ev : Event) (s : Sys W) : Sys W :=
  mkSys (sc s) (world s) (trace s ++ [ev]).

(** [RunJobByEvent] fires the job of a service when the key is the job's. *)
Definition RunJobByEvent `{Docker W} (serviceName key : string) (s : Sys W)
  : Outcome unit * Sys W :=
  match jobs (sc s) !! serviceName with
  | Some jobID =>
      match workerOfEntry jobID (sc s) with
      | Returns wc =>
          if EventRun wc then
            if String.eqb (EventRunKey wc) key then
              (* sc.cron.Entry(jobID).Job.Run() *)
              (Returns tt,
               mkSys (sc s) (worker_Run wc (world s)) (trace s ++ [JobRun wc]))
            else
              (Returns tt,
               logTo (Log Info "" ("Wrong key for run job for service '"
                                     +:+ serviceName +:+ "'")) s)
          else
            (Returns tt,
             logTo (Log Info "" ("Сервис " +:+ serviceName
                                   +:+ " не настроен на запуск по событию")) s)
      | _ => (Panics, s)
      end
  | None =>
      (Returns tt,
       logTo (Log Info "" ("Не найден сервис '" +:+ serviceName +:+ "'")) s)
  end.

(** [Tasks]. *)
Definition Tasks `{Docker W} (serviceName : string) (w : W)
  : (list TaskInfo * option error) * W :=
  docker_TaskList serviceName w.

(** [keys] of [WaitForEnd]: the baseline tasks by identifier. *)
Definition baselineKeys (tasks : list TaskInfo) : gmap string TaskInfo :=
  foldl (fun keys x => <[tkID x := x]> keys) ∅ tasks.

Definition isNew (keys : gmap string TaskInfo) (x : TaskInfo) : bool :=
  match keys !! tkID x with Some _ => false | None => true end.

(** The scan of one polled task list for the task under watch: [Some] is a
    [return] of [WaitForEnd], [None] lets the poll loop go on. *)
Fixpoint scanTasks `{Docker W} (xID : string) (tl : list TaskInfo) (w : W)
  : option ((string * option error) * W * list Event) :=
  match tl with
  | [] => None
  | tsk :: rest =>
      if String.eqb (tkID tsk) xID then
        match tkState tsk with
        | TaskStateComplete =>
            let '((logs, err), w') := docker_TaskLogs (tkID tsk) w in
            Some ((logs, None), w',
                  logIfErr err
                    (Log Error "" ("Cannot get logs for " +:+ tkID tsk)))
        | TaskStateFailed => Some (("", Some (errors.New (tkErr tsk))), w, [])
        | _ => scanTasks xID rest w
        end
      else scanTasks xID rest w
  end.

(** The poll loop of [WaitForEnd], [for timeout := time.After(timeout); ; ]:
    each iteration first looks at the timer channel, without blocking, and
    then lists the tasks again. [deadline] is the instant of [time.After]
    plus the duration. The runtime delivers the timer's value while the
    goroutine is parked in a request to the daemon, never before the
    deadline: at a [select] the channel is readable when a listing has been
    made since the timer was created ([polled]) and the clock had reached
    the deadline when that listing returned. The first [select] therefore
    takes the default case whatever the duration, a zero one included. *)
Fixpoint pollLoop `{Docker W} (fuel : nat) (serviceName xID : string)
    (deadline : Z) (polled : bool) (w : W) (tr : list Event)
  : Outcome (string * option error) * W * list Event :=
  match fuel with
  | O => (OutOfFuel, w, tr)
  | S fuel' =>
      if polled && (deadline <=? time_Now w) then
        (Returns ("", Some (errors.New "Timeout")), w,
         tr ++ [Log Error "" "Timeout"])
      else
        let '((tl, _), w1) := docker_TaskList serviceName w in
        match scanTasks xID tl w1 with
        | Some (r, w2, out) => (Returns r, w2, tr ++ out)
        | None => pollLoop fuel' serviceName xID deadline true w1 tr
        end
  end.

(** [timeout, _ := time.ParseDuration(wc.Job.EventTimeout)]: the error is
    dropped and the value returned with it, zero, is used. *)
Definition eventTimeout `{GoLib} (job : Job) : Z :=
  match time_ParseDuration (EventTimeout job) with
  | Some d => d
  | None => 0
  end.

(** [WaitForEnd]: [tasks] is the baseline snapshot taken before the
    trigger. [log.Error().Err(err)] without [Msg] emits nothing. [fuel]
    bounds the iterations of the poll loop that come after the first. *)
Definition WaitForEnd `{GoLib} `{Docker W} (fuel : nat)
    (serviceName : string) (tasks : list TaskInfo) (s : Sys W)
  : Outcome (string * option error) * Sys W :=
  let wc : Outcome (option Job) :=
    match jobs (sc s) !! serviceName with
    | Some jobID =>
        match workerOfEntry jobID (sc s) with
        | Returns j => Returns (Some j)
        | _ => Panics
        end
    | None => Returns None
    end in
  match wc with
  | Returns wc =>
      let '((list, err), w1) := docker_TaskList serviceName (world s) in
      match err with
      | Some e => (Returns ("", Some e), mkSys (sc s) w1 (trace s))
      | None =>
          let keys := baselineKeys tasks in
          match find (isNew keys) list with
          | Some x =>
              let tr1 := trace s ++ [Log Info "" ("Новая задача " +:+ tkID x)] in
              match wc with
              | None => (Panics, mkSys (sc s) w1 tr1)   (* wc.Job on a nil wc *)
              | Some job =>
                  let tr2 :=
                    tr1 ++ [Log Info "" ("Timiout - " +:+ EventTimeout job)] in
                  let timeout := eventTimeout job in
                  let '(r, w2, tr3) :=
                    pollLoop (S fuel) serviceName (tkID x)
                             (time_Now w1 + timeout) false w1 tr2 in
                  (r, mkSys (sc s) w2 tr3)
              end
          | None =>
              (Returns ("", Some (errors.New "Не найден список задач")),
               mkSys (sc s) w1 (trace s))
          end
      end
  | _ => (Panics, s)
  end.

(** [handle] of internal/eventservice: GET /event/:service/:key. *)
Definition handle `{GoLib} `{Docker W} (fuel : nat)
    (serviceName serviceKey : string) (s : Sys W)
  : Outcome (Z * string) * Sys W :=
  let '((tasks, err), w1) := Tasks serviceName (world s) in
  match err with
  | Some e => (Returns (500, e), mkSys (sc s) w1 (trace s))
  | None =>
      match RunJobByEvent serviceName serviceKey
                          (mkSys (sc s) w1 (trace s)) with
      | (Returns _, s2) =>
          let s3 := mkSys (sc s2) (time_Sleep (5 * 10 ^ 9) (world s2))
                          (trace s2) in
          match WaitForEnd fuel serviceName tasks s3 with
          | (Returns (_, Some e), s4) => (Returns (500, e), s4)
          | (Returns (msg, None), s4) => (Returns (200, msg), s4)
          | (Panics, s4) => (Panics, s4)
          | (OutOfFuel, s4) => (OutOfFuel, s4)
          end
      | (_, s2) => (Panics, s2)
      end
  end.

(** ** Views of the registry used in the statements *)

(** The value [range] yields last for [key]; with the unique keys of a Go
    map this is the map's value at [key]. *)
Fixpoint labelOf (key : string) (labels : list (string * string))
  : option string :=
  match labels with
  | [] => None
  | (k, v) :: rest =>
      match labelOf key rest with
      | Some v' => Some v'
      | None => if String.eqb k key then Some v else None
      end
  end.

Definition isScaleDown (kv : string * string) : bool :=
  String.eqb (fst kv) "swarm.cronjob.scaledown" && String.eqb (snd kv) "true".

(** The schedule entry a service is registered with, if any. *)
Definition registered (s : SwarmCronjob) (serviceName : string)
  : option Cron.Entry :=
  match jobs s !! serviceName with
  | Some id => find (fun e => id =? Cron.ID e) (Cron.entries (cron s))
  | None => None
  end.

(** Consistency of the registry with the cron engine: every registered
    service has exactly its own entry, no entry is left without a service,
    and the identifiers handed out so far are below the counter. *)
Record registry_ok (s : SwarmCronjob) : Prop := {
  ok_entry : forall name id, jobs s !! name = Some id ->
      exists e, e ∈ Cron.entries (cron s) /\ Cron.ID e = id
                /\ is_Some (Cron.EJob e);
  ok_owner : forall e, e ∈ Cron.entries (cron s) ->
      exists name, jobs s !! name = Some (Cron.ID e);
  ok_inj : forall n1 n2 id, jobs s !! n1 = Some id -> jobs s !! n2 = Some id ->
      n1 = n2;
  ok_nodup : NoDup (Cron.ID <$> Cron.entries (cron s));
  ok_fresh : forall e, e ∈ Cron.entries (cron s) ->
      Cron.ID e <= Cron.nextID (cron s) }.

Definition orElse {A} (o : option A) (d : A) : A :=
  match o with Some a => a | None => d end.


(** What the labels ask for, as the loop reads them. *)
Definition labelEnable (labels : list (string * string)) : bool :=
  orElse (fst ∘ strconv.ParseBool <$> labelOf "swarm.cronjob.enable" labels)
         false.

Definition labelSchedule (labels : list (string * string)) : string :=
  orElse (labelOf "swarm.cronjob.schedule" labels) "".

(** The registry a reconcile of an enabled service starts the registration
    from: the old entry, if any, is already removed. *)
Definition cleared (serviceName : string) (s : SwarmCronjob) : SwarmCronjob :=
  match jobs s !! serviceName with
  | Some jobID => removeJob serviceName jobID s
  | None => s
  end.

(** The registration a reconcile ends with when the cron parser accepts
    the schedule: [AddJob] followed by [sc.jobs[serviceName] = jobID]. *)
Definition register (serviceName spec : string) (job : Job) (s : SwarmCronjob)
  : SwarmCronjob :=
  let id := Cron.nextID (cron s) + 1 in
  mkSC (Cron.mkCron (Cron.entries (cron s) ++ [Cron.mkEntry id spec (Some job)]) id)
       (<[serviceName := id]> (jobs s)).

(** The labels of a service ask for [enable = enabled] on schedule [sched],
    without a scale-down mark. *)
Definition asksFor (service : ServiceInfo) (enabled sched : string) : Prop :=
  existsb isScaleDown (svLabels service) = false /\
  labelOf "swarm.cronjob.enable" (svLabels service) = Some enabled /\
  labelOf "swarm.cronjob.schedule" (svLabels service) = Some sched.

(** The program state when the world has moved on to [w]. *)
Definition atWorld {W} (w : W) (s : Sys W) : Sys W := mkSys (sc s) w (trace s).

(** The world after [n] polls of the loop of [WaitForEnd], each made before
    the deadline and none showing the watched task Complete or Failed;
    [None] when the loop does not make [n] such polls. *)
Fixpoint afterIdlePolls `{Docker W} (n : nat) (serviceName xID : string)
    (deadline : Z) (w : W) : option W :=
  match n with
  | O => Some w
  | S n' =>
      if deadline <=? time_Now w then None
      else
        let '((tl, _), w1) := docker_TaskList serviceName w in
        match scanTasks xID tl w1 with
        | Some _ => None
        | None => afterIdlePolls n' serviceName xID deadline w1
        end
  end.

(** ** A scripted Docker daemon, for evaluating the program on examples *)

Module Script.

(** Each request consumes the next scripted answer; the last one repeats.
    Every request takes one second of the clock. *)
Record World := mkWorld {
  clock : Z;
  services : list (ServiceInfo + error);
  taskLists : list (list TaskInfo * option error);
  taskLogs : list (string * string) }.

Definition second : Z := 10 ^ 9.

Definition next {A} (dflt : A) (l : list A) : A * list A :=
  match l with
  | [] => (dflt, [])
  | [a] => (a, [a])
  | a :: rest => (a, rest)
  end.

Fixpoint assoc (k : string) (l : list (string * string)) : option string :=
  match l with
  | [] => None
  | (k', v) :: rest => if String.eqb k' k then Some v else assoc k rest
  end.

#[export] Instance docker : Docker World := {|
  docker_Service _ w :=
    let '(r, rest) := next (inr "service not found") (services w) in
    (r, mkWorld (clock w + second) rest (taskLists w) (taskLogs w));
  docker_TaskList _ w :=
    let '(r, rest) := next ([], None) (taskLists w) in
    (r, mkWorld (clock w + second) (services w) rest (taskLogs w));
  api_TaskLogs taskid w :=
    (match assoc taskid (taskLogs w) with
     | Some text => inl text
     | None => inr "no such task"
     end, w);
  worker_Run _ w := w;
  time_Now w := clock w;
  time_Sleep d w :=
    mkWorld (clock w + d) (services w) (taskLists w) (taskLogs w) |}.

(** A table standing for the two library parsers. *)
Definition parseDuration (s : string) : option Z :=
  if String.eqb s "3s" then Some (3 * second)
  else if String.eqb s "1h" then Some (3600 * second)
  else None.

Definition parseCron (s : string) : option error :=
  if String.eqb s "0 * * * *" then None
  else if String.eqb s "@daily" then None
  else Some "invalid cron expression".

#[export] Instance lib : GoLib := {|
  time_ParseDuration := parseDuration;
  cron_Parse := parseCron;
  time_ParseDuration_empty := eq_refl |}.

Definition enable : string := "swarm.cronjob.enable".
Definition schedule : string := "swarm.cronjob.schedule".

(** A service with an hourly schedule, triggerable with the key "s3cret". *)
Definition hourly (enabled : string) : ServiceInfo :=
  mkService "backup"
    [(schedule, "0 * * * *"); ("swarm.cronjob.event.enable", "true");
     (enable, enabled); ("swarm.cronjob.event.key", "s3cret");
     ("swarm.cronjob.event.timeout", "3s")].

(** The job the reconciler builds from [hourly "true"]. *)
Definition hourlyJob : Job :=
  mkJob "backup" true "0 * * * *" false 1 true "s3cret" "3s" false.

Definition task (id : string) (st : TaskState) : TaskInfo := mkTask id st "".

(** The state after the start-up reconcile of "backup", with the given
    script of task listings still to come. *)
Definition started (lists : list (list TaskInfo * option error))
    (logs : list (string * string)) : Sys World :=
  snd (crudJob "backup"
         (New (mkWorld 0 [inl (hourly "true")] lists logs))).

(** "backup" again, seen at a later moment by a daemon with the given
    answers ready. *)
Definition later (answers : list (ServiceInfo + error)) : Sys World :=
  atWorld (mkWorld 10 answers [] []) (started [] []).

(** The service has been removed from the cluster. *)
Definition gone : Sys World := later [inr "service backup not found"].

(** The service is being scaled down. *)
Definition scaledDown : ServiceInfo :=
  mkService "backup"
    [(enable, "true"); ("swarm.cronjob.scaledown", "true");
     (schedule, "0 * * * *")].

(** The service has been given a schedule the parser refuses. *)
Definition misscheduled : ServiceInfo :=
  mkService "backup" [(schedule, "every now and then"); (enable, "true")].

(** A service asking for zero replicas, and one with a replicas label that
    is not a number. *)
Definition replicas (n : string) : ServiceInfo :=
  mkService "backup"
    [(enable, "true"); ("swarm.cronjob.replicas", n);
     (schedule, "@daily")].

(** The state after the start-up reconcile of a service. *)
Definition reconciled (service : ServiceInfo) : Sys World :=
  snd (crudJob (svName service) (New (mkWorld 0 [inl service] [] []))).

(** A service triggerable by event, with no event.timeout label. *)
Definition untimed : ServiceInfo :=
  mkService "report"
    [(enable, "true"); (schedule, "@daily");
     ("swarm.cronjob.event.enable", "true");
     ("swarm.cronjob.event.key", "s3cret")].

Definition startedUntimed (lists : list (list TaskInfo * option error))
  : Sys World :=
  snd (crudJob "report" (New (mkWorld 0 [inl untimed] lists []))).

(** The daemon answers enabled, disabled, enabled. *)
Definition toggled : Sys World :=
  New (mkWorld 0 [inl (hourly "true"); inl (hourly "false");
                  inl (hourly "true")] [] []).

(** The daemon after [n] task listings. *)
Fixpoint listed (n : nat) (w : World) : World :=
  match n with
  | O => w
  | S n' => listed n' (snd (docker_TaskList "backup" w))
  end.

Definition A : TaskInfo := task "A" TaskStateRunning.
Definition B : TaskInfo := task "B" TaskStateRunning.

(** Baseline {A, B}; the run starts task C, seen Complete at the third
    poll. *)
Definition thirdPoll : Sys World :=
  started [([A; B; task "C" TaskStatePreparing], None);
           ([A; B; task "C" TaskStateStarting], None);
           ([A; B; task "C" TaskStateRunning], None);
           ([A; B; task "C" TaskStateComplete], None)]
          [("C", "backup done")].

(** Two tasks outside an empty baseline: A keeps running, B is Complete
    at every listing. *)
Definition sibling : Sys World :=
  started [([A; task "B" TaskStateComplete], None)] [("B", "backup done")].

(** Nothing but the baseline task A is ever listed. *)
Definition quiet : Sys World := started [([A], None)] [].

(** "report", which has no event.timeout label, after its start-up
    reconcile; its run has started task A, Complete at every listing. *)
Definition finishedUntimed : Sys World :=
  snd (crudJob "report"
         (New (mkWorld 0 [inl untimed] [([task "A" TaskStateComplete], None)]
                       [("A", "report done")]))).

(** The baseline listing is empty; by the time the handler waits, a task
    started by the schedule is listed, Complete. *)
Definition overlapped : Sys World :=
  started [([], None); ([task "A" TaskStateComplete], None)]
          [("A", "backup done")].

End Script.

(** ** Further views and definitions *)

(** The label keys the switch of [crudJob] has a case for. *)
Definition knownLabel (labelKey : string) : bool :=
  String.eqb labelKey "swarm.cronjob.enable"
  || String.eqb labelKey "swarm.cronjob.schedule"
  || String.eqb labelKey "swarm.cronjob.event.enable"
  || String.eqb labelKey "swarm.cronjob.event.key"
  || String.eqb labelKey "swarm.cronjob.event.timeout"
  || String.eqb labelKey "swarm.cronjob.skip-running"
  || String.eqb labelKey "swarm.cronjob.replicas"
  || String.eqb labelKey "swarm.cronjob.registry-auth"
  || String.eqb labelKey "swarm.cronjob.scaledown".

(** The job a trigger request fires, if any: the service is registered,
    its job takes event runs and the key is the job's. *)
Definition triggered (s : SwarmCronjob) (serviceName key : string)
  : option Job :=
  match registered s serviceName with
  | Some e =>
      match Cron.EJob e with
      | Some job =>
          if EventRun job && String.eqb (EventRunKey job) key then Some job
          else None
      | None => None
      end
  | None => None
  end.

(** ** strings (Go standard library) and [normalizeImage] *)

Module strings.

(** [strings.HasPrefix]. *)
Fixpoint HasPrefix (s prefix : string) : bool :=
  match prefix, s with
  | EmptyString, _ => true
  | String p prefix', String c s' => Ascii.eqb p c && HasPrefix s' prefix'
  | String _ _, EmptyString => false
  end.

(** [strings.Index]: the byte index of the first instance of [substr] in
    [s], or -1. *)
Fixpoint Index (s substr : string) : Z :=
  if HasPrefix s substr then 0
  else
    match s with
    | EmptyString => -1
    | String _ s' =>
        let i := Index s' substr in
        if i <? 0 then -1 else i + 1
    end.

End strings.

(** The slice [s[:n]], for [n] within the length of [s]. *)
Fixpoint sliceTo (n : nat) (s : string) : string :=
  match n, s with
  | S n', String c s' => String c (sliceTo n' s')
  | _, _ => EmptyString
  end.

(** Whether the byte [a] occurs in [s]. *)
Fixpoint hasByte (a : ascii) (s : string) : bool :=
  match s with
  | EmptyString => false
  | String c s' => Ascii.eqb a c || hasByte a s'
  end.

(** [normalizeImage] of internal/docker/client.go. *)
Definition normalizeImage (image : string) : string :=
  let i := strings.Index image "@sha256:" in
  if 0 <? i then sliceTo (Z.to_nat i) image else image.

(** ** [SwarmCronjob.Run]: the start-up reconcile and the event loop *)

(** Modelled from the spec: [model.ServiceEvent], the record a cluster
    event is decoded into: service name, new and old update state. *)
Record ServiceEvent := mkEvent {
  evService : string;
  evNew : string;       (* UpdateState.New *)
  evOld : string }.     (* UpdateState.Old *)

(** What [Run] needs beyond [Docker]: the listing of the services that
    carry given labels, and [mapstructure.Decode] of the attributes of a
    message into the event record, which it updates in place. *)
Class Swarm (W : Type) := {
  docker_ServiceList :
    list string -> W -> (list ServiceInfo * option error) * W;
  mapstructure_Decode :
    list (string * string) -> ServiceEvent -> ServiceEvent * option error }.

(** What the two channels of [docker.Events] deliver, in the order the
    [select] of the loop takes it. *)
Inductive StreamItem :=
  | Message (attributes : list (string * string))
  | StreamError (err : error).

Inductive RunOutcome :=
  | RunReturned (err : error)   (* [return err] *)
  | RunExited (msg : string)    (* [log.Fatal]: the line is written, the process exits *)
  | RunListening.               (* blocked in the [select], nothing more to take *)

(** [%d] of a length. *)
Definition itoa (n : nat) : string :=
  DecimalString.NilZero.string_of_uint (Nat.to_uint n).

(** The loop "Add services as cronjobs" of [Run]. *)
Fixpoint addServices `{GoLib} `{Docker W} (services : list ServiceInfo)
    (s : Sys W) : Sys W :=
  match services with
  | [] => s
  | service :: rest =>
      let '((_, err), s1) := crudJob (svName service) s in
      addServices rest
        (match err with
         | Some _ =>
             logTo (Log Error "" ("Cannot manage job for service "
                                    +:+ svName service)) s1
         | None => s1
         end)
  end.

(** The event loop of [Run]; [event] is the record declared before the
    loop, which every decoding writes into. *)
Fixpoint listen `{GoLib} `{Docker W} `{Swarm W} (items : list StreamItem)
    (event : ServiceEvent) (s : Sys W) : RunOutcome * Sys W :=
  match items with
  | [] => (RunListening, s)
  | StreamError _ :: _ => (RunExited "Event channel failed", s)
  | Message attributes :: rest =>
      let '(event1, err) := mapstructure_Decode attributes event in
      match err with
      | Some e =>
          listen rest event1
                 (logTo (Log Warn "" ("Cannot decode event, " +:+ e)) s)
      | None =>
          let s1 := logTo (Log Debug (evService event1) "Event triggered") s in
          let '((processed, err), s2) := crudJob (evService event1) s1 in
          match err with
          | Some _ =>
              listen rest event1
                     (logTo (Log Error (evService event1) "Cannot manage job") s2)
          | None =>
              if processed then
                listen rest event1
                  (logTo (Log Debug ""
                            ("Number of cronjob tasks: "
                               +:+ itoa (length (Cron.entries (cron (sc s2))))))
                         s2)
              else listen rest event1 s2
          end
      end
  end.

(** [Run], on the items the event stream delivers. [sc.cron.Start()]
    changes no entry and no registration. *)
Definition Run `{GoLib} `{Docker W} `{Swarm W} (items : list StreamItem)
    (s : Sys W) : RunOutcome * Sys W :=
  (* Find scheduled services *)
  let '((services, err), w) :=
    docker_ServiceList ["swarm.cronjob.enable"; "swarm.cronjob.schedule"]
                       (world s) in
  match err with
  | Some e => (RunReturned e, atWorld w s)
  | None =>
      let s1 :=
        logTo (Log Debug "" (itoa (length services)
                               +:+ " scheduled services found through labels"))
              (atWorld w s) in
      (* Add services as cronjobs *)
      let s2 := addServices services s1 in
      (* Start cron routine *)
      let s3 := logTo (Log Debug "" "Starting the cron scheduler") s2 in
      (* Listen Docker events *)
      let s4 := logTo (Log Debug "" "Listening docker events...") s3 in
      listen items (mkEvent "" "" "") s4
  end.

(** The services the event loop reconciles: the names decoded from the
    messages, up to the first stream error. *)
Fixpoint eventServices `{Swarm W} (items : list StreamItem)
    (event : ServiceEvent) : list string :=
  match items with
  | [] => []
  | StreamError _ :: _ => []
  | Message attributes :: rest =>
      let '(event1, err) := mapstructure_Decode attributes event in
      match err with
      | Some _ => eventServices rest event1
      | None => evService event1 :: eventServices rest event1
      end
  end.

(** The event record once the messages of [items] have been decoded into
    it one after the other, up to the first stream error; a decoding that
    fails leaves in the record what it wrote before failing. *)
Fixpoint decoded `{Swarm W} (items : list StreamItem)
    (event : ServiceEvent) : ServiceEvent :=
  match items with
  | Message attributes :: rest =>
      decoded rest (fst (mapstructure_Decode attributes event))
  | _ => event
  end.

(** ** A scripted event stream *)

Module Stream.

(** The daemon lists the service it is about to describe; an event carries
    the service name under the attribute "name". *)
#[export] Instance swarm : Swarm Script.World := {|
  docker_ServiceList _ w :=
    ((match Script.services w with inl service :: _ => [service] | _ => [] end,
      None),
     Script.mkWorld (Script.clock w + Script.second) (Script.services w)
                    (Script.taskLists w) (Script.taskLogs w));
  mapstructure_Decode attributes event :=
    match Script.assoc "name" attributes with
    | Some name => (mkEvent name (evNew event) (evOld event), None)
    | None => (event, Some "name: missing")
    end |}.

(** "backup" is found at start-up; then come an update of "backup", which
    is now disabled, and an event that cannot be decoded. *)
Definition boot : Sys Script.World :=
  New (Script.mkWorld 0 [inl (Script.hourly "true");
                         inl (Script.hourly "false")] [] []).

Definition events : list StreamItem :=
  [Message [("name", "backup")]; Message [("id", "x1")]].

(** "backup" is found at start-up with a schedule the parser refuses, and
    has it still when an update of the service is announced. *)
Definition misbooted : Sys Script.World :=
  New (Script.mkWorld 0 [inl Script.misscheduled; inl Script.misscheduled]
                      [] []).

Definition update : list StreamItem := [Message [("name", "backup")]].

End Stream.


(** ** A steady daemon *)

Module Steady.

(** The world is the clock alone. The daemon always describes the hourly
    "backup" and always lists one task, A, running; every request takes one
    second. *)
#[export] Instance docker : Docker Z := {|
  docker_Service _ w := (inl (Script.hourly "true"), w + Script.second);
  docker_TaskList _ w := (([Script.A], None), w + Script.second);
  api_TaskLogs _ w := (inr "no such task", w);
  worker_Run _ w := w;
  time_Now w := w;
  time_Sleep d w := w + d |}.

(** The state after the start-up reconcile of "backup". *)
Definition started : Sys Z := snd (crudJob (H := Script.lib) "backup" (New 0)).

End Steady.

(** * Properties *)

Section Properties.

Context `{GoLib} `{Docker W}.

(** ** The label loop *)

Ltac case_key k :=
  repeat match goal with
  | |- context [String.eqb k ?lit] =>
      destruct (String.eqb_spec k lit) as [-> | ?]; cbn
  | Hs : context [String.eqb k ?lit] |- _ =>
      destruct (String.eqb_spec k lit) as [-> | ?]; cbn in Hs
  end.

Lemma seekLabel_scaledown service k v j :
  isScaleDown (k, v) = true -> fst (seekLabel service k v j) = None.
Proof.
  unfold isScaleDown. cbn [fst snd]. intros Hkv.
  apply andb_true_iff in Hkv as [Hk Hv].
  apply String.eqb_eq in Hk, Hv. subst. reflexivity.
Qed.

Lemma seekLabel_continue service k v j :
  isScaleDown (k, v) = false -> is_Some (fst (seekLabel service k v j)).
Proof.
  unfold isScaleDown, seekLabel. cbn [fst snd]. intros Hkv.
  case_key k; try (destruct (strconv.ParseBool v)); try (destruct (strconv.ParseUint v));
    cbn; eauto.
  cbn in Hkv. rewrite Hkv. cbn. eauto.
Qed.

(** What one case of the switch does to the fields the reconciler and the
    waiter read afterwards. *)
Lemma seekLabel_fields service k v j j' out :
  seekLabel service k v j = (Some j', out) ->
  Name j' = Name j /\
  Enable j' = (if String.eqb k "swarm.cronjob.enable"
               then fst (strconv.ParseBool v) else Enable j) /\
  Schedule j' = (if String.eqb k "swarm.cronjob.schedule"
                 then v else Schedule j) /\
  Replicas j' = (if String.eqb k "swarm.cronjob.replicas"
                 then fst (strconv.ParseUint v) else Replicas j) /\
  EventTimeout j' = (if String.eqb k "swarm.cronjob.event.timeout"
                     then v else EventTimeout j).
Proof.
  unfold seekLabel. intros Hs.
  case_key k;
    try (destruct (strconv.ParseBool v) eqn:?);
    try (destruct (strconv.ParseUint v) eqn:?);
    try (destruct (String.eqb v "true"));
    inversion Hs; subst; cbn; auto.
Qed.

Lemma seekLabels_scaledown service labels :
  existsb isScaleDown labels = true ->
  forall j, fst (seekLabels service labels j) = None.
Proof.
  induction labels as [| [k v] rest IH]; cbn [existsb seekLabels]; [discriminate |].
  intros Hex j. destruct (isScaleDown (k, v)) eqn:Hkv.
  - pose proof (seekLabel_scaledown service k v j Hkv) as Hn.
    destruct (seekLabel service k v j) as [[j' |] out]; [discriminate | reflexivity].
  - cbn in Hex. destruct (seekLabel service k v j) as [[j' |] out]; [| reflexivity].
    specialize (IH Hex j'). destruct (seekLabels service rest j'). exact IH.
Qed.

Lemma seekLabels_continue service labels :
  existsb isScaleDown labels = false ->
  forall j, is_Some (fst (seekLabels service labels j)).
Proof.
  induction labels as [| [k v] rest IH]; cbn [existsb seekLabels]; [eauto |].
  intros Hex j. apply orb_false_iff in Hex as [Hkv Hex].
  destruct (seekLabel_continue service k v j Hkv) as [j' Hj'].
  destruct (seekLabel service k v j) as [[j1 |] out]; [| discriminate].
  specialize (IH Hex j1). destruct (seekLabels service rest j1). exact IH.
Qed.

(** The job the loop leaves, field by field, from the labels. *)
Lemma seekLabels_fields service labels :
  forall j j' out, seekLabels service labels j = (Some j', out) ->
  Name j' = Name j /\
  Enable j' = orElse (fst ∘ strconv.ParseBool
                        <$> labelOf "swarm.cronjob.enable" labels) (Enable j) /\
  Schedule j' = orElse (labelOf "swarm.cronjob.schedule" labels) (Schedule j) /\
  Replicas j' = orElse (fst ∘ strconv.ParseUint
                        <$> labelOf "swarm.cronjob.replicas" labels) (Replicas j) /\
  EventTimeout j' = orElse (labelOf "swarm.cronjob.event.timeout" labels)
                           (EventTimeout j).
Proof.
  induction labels as [| [k v] rest IH]; cbn [seekLabels labelOf]; intros j j' out Hs.
  - inversion Hs; subst. cbn. auto.
  - destruct (seekLabel service k v j) as [[j1 |] out1] eqn:H1; [| discriminate].
    destruct (seekLabels service rest j1) as [r out2] eqn:H2.
    inversion Hs; subst r.
    destruct (IH _ _ _ H2) as (Hn & He & Hsch & Hr & Ht).
    destruct (seekLabel_fields _ _ _ _ _ _ H1) as (Hn1 & He1 & Hsch1 & Hr1 & Ht1).
    rewrite Hn, He, Hsch, Hr, Ht, Hn1, He1, Hsch1, Hr1, Ht1.
    repeat split;
      match goal with
      | |- context [labelOf ?key rest] => destruct (labelOf key rest); cbn; auto
      end;
      match goal with
      | |- context [String.eqb k ?key] => destruct (String.eqb k key); cbn; auto
      end.
Qed.

(** ** The cron engine and the registry invariant *)

Lemma Remove_elem id c e :
  e ∈ Cron.entries (Cron.Remove id c) <-> e ∈ Cron.entries c /\ Cron.ID e <> id.
Proof.
  unfold Cron.Remove. cbn. rewrite list_elem_of_filter, negb_True, Is_true_true.
  rewrite Z.eqb_eq. tauto.
Qed.

Lemma find_entry id l e :
  NoDup (Cron.ID <$> l) -> e ∈ l -> Cron.ID e = id ->
  find (fun e' => id =? Cron.ID e') l = Some e.
Proof.
  induction l as [| a l IH]; intros Hnd He Hid; [by apply elem_of_nil in He |].
  cbn. rewrite fmap_cons in Hnd. apply NoDup_cons in Hnd as [Hni Hnd].
  apply elem_of_cons in He as [-> | He].
  - subst id. by rewrite Z.eqb_refl.
  - destruct (Z.eqb_spec id (Cron.ID a)) as [Heq | _]; [| by apply IH].
    exfalso. apply Hni. rewrite <- Heq, <- Hid. by apply list_elem_of_fmap_2.
Qed.

Lemma registry_ok_New : registry_ok (mkSC Cron.New ∅).
Proof.
  split; cbn.
  - intros name id Hl. by rewrite lookup_empty in Hl.
  - intros e He. by apply elem_of_nil in He.
  - intros n1 n2 id Hl. by rewrite lookup_empty in Hl.
  - constructor.
  - intros e He. by apply elem_of_nil in He.
Qed.

Lemma registry_ok_removeJob s name id :
  registry_ok s -> jobs s !! name = Some id -> registry_ok (removeJob name id s).
Proof.
  intros [Hent Hown Hinj Hnd Hfr] Hname. split; cbn [removeJob cron jobs].
  - intros n i Hl. apply lookup_delete_Some in Hl as [Hne Hl].
    destruct (Hent _ _ Hl) as (e & He & Hid & Hj). exists e. repeat split; auto.
    apply Remove_elem. split; [done |]. intros Heq. apply Hne.
    eapply Hinj; [exact Hname | congruence].
  - intros e He. apply Remove_elem in He as [He Hid].
    destruct (Hown _ He) as [n Hn]. exists n. apply lookup_delete_Some.
    split; [| done]. intros <-. congruence.
  - intros n1 n2 i H1 H2. apply lookup_delete_Some in H1 as [_ H1].
    apply lookup_delete_Some in H2 as [_ H2]. eauto.
  - eapply sublist_NoDup; [exact Hnd |]. unfold Cron.Remove. cbn.
    apply fmap_sublist, sublist_filter.
  - intros e He. apply Remove_elem in He as [He _]. cbn. auto.
Qed.

Lemma registry_ok_register s name spec job :
  registry_ok s -> jobs s !! name = None ->
  registry_ok (register name spec job s).
Proof.
  intros [Hent Hown Hinj Hnd Hfr] Hname. unfold register.
  set (id := Cron.nextID (cron s) + 1).
  assert (Hnew : forall n, jobs s !! n <> Some id).
  { intros n Hn. destruct (Hent _ _ Hn) as (e & He & Hid & _).
    specialize (Hfr _ He). subst id. lia. }
  split; cbn [cron jobs Cron.entries Cron.nextID].
  - intros n i Hl. apply lookup_insert_Some in Hl as [[<- <-] | [Hne Hl]].
    + eexists. split; [apply elem_of_app; right; by apply list_elem_of_singleton |].
      cbn. eauto.
    + destruct (Hent _ _ Hl) as (e & He & Hid & Hj). exists e.
      repeat split; auto. apply elem_of_app. by left.
  - intros e He. apply elem_of_app in He as [He | He].
    + destruct (Hown _ He) as [n Hn]. exists n. rewrite lookup_insert_ne; [done |].
      intros <-. congruence.
    + apply list_elem_of_singleton in He as ->. exists name. cbn.
      by rewrite lookup_insert_eq.
  - intros n1 n2 i H1 H2.
    apply lookup_insert_Some in H1 as [[<- <-] | [Hne1 H1]];
      apply lookup_insert_Some in H2 as [[<- Hi] | [Hne2 H2]]; subst; eauto.
    + by destruct (Hnew n2).
    + by destruct (Hnew n1).
  - rewrite fmap_app. apply NoDup_app. repeat split; [done | | apply NoDup_singleton].
    intros i Hi Hi'. cbn in Hi'. apply list_elem_of_singleton in Hi' as ->.
    apply list_elem_of_fmap in Hi as (e & Hid & He). specialize (Hfr _ He).
    subst id. lia.
  - intros e He. apply elem_of_app in He as [He | He].
    + specialize (Hfr _ He). subst id. lia.
    + apply list_elem_of_singleton in He as ->. cbn. lia.
Qed.

Lemma registered_removeJob s name id :
  registered (removeJob name id s) name = None.
Proof. unfold registered, removeJob. cbn. by rewrite lookup_delete_eq. Qed.

Lemma find_fresh_entry l id e :
  (forall e', e' ∈ l -> Cron.ID e' <> id) -> Cron.ID e = id ->
  find (fun e' => id =? Cron.ID e') (l ++ [e]) = Some e.
Proof.
  intros Hl He. induction l as [| a l IH]; cbn.
  - by rewrite He, Z.eqb_refl.
  - destruct (Z.eqb_spec id (Cron.ID a)) as [Heq | _].
    + exfalso. by apply (Hl a (list_elem_of_here _ _)).
    + apply IH. intros e' He'. apply Hl. by right.
Qed.

Lemma registered_register s name spec job :
  registry_ok s ->
  registered (register name spec job s) name
  = Some (Cron.mkEntry (Cron.nextID (cron s) + 1) spec (Some job)).
Proof.
  intros Hok. unfold registered, register.
  set (id := Cron.nextID (cron s) + 1). cbn. rewrite lookup_insert_eq.
  apply find_fresh_entry; [| done].
  intros e He Heq. pose proof (ok_fresh _ Hok e He). subst id. lia.
Qed.

(** ** The reconciler, case by case *)

Lemma seekLabels_service (service : ServiceInfo) :
  existsb isScaleDown (svLabels service) = false ->
  exists job out,
    seekLabels (svName service) (svLabels service) (newWorkerJob service)
      = (Some job, out) /\
    Enable job = labelEnable (svLabels service) /\
    Schedule job = labelSchedule (svLabels service).
Proof.
  intros Hsd.
  destruct (seekLabels_continue (svName service) _ Hsd (newWorkerJob service))
    as [job Hjob].
  destruct (seekLabels _ _ _) as [r out] eqn:Hs. cbn in Hjob. subst r.
  exists job, out. split; [done |].
  destruct (seekLabels_fields _ _ _ _ _ Hs) as (_ & He & Hsch & _). auto.
Qed.

Lemma crudJob_enabled serviceName (s : Sys W) service w :
  docker_Service serviceName (world s) = (inl service, w) ->
  existsb isScaleDown (svLabels service) = false ->
  labelEnable (svLabels service) = true ->
  exists job,
    Schedule job = labelSchedule (svLabels service) /\
    let sc1 := cleared serviceName (sc s) in
    match cron_Parse (Schedule job) with
    | Some err =>
        fst (crudJob serviceName s) = (false, Some err) /\
        sc (snd (crudJob serviceName s)) = sc1
    | None =>
        fst (crudJob serviceName s) = (true, None) /\
        sc (snd (crudJob serviceName s))
        = register serviceName (Schedule job) job sc1
    end.
Proof.
  intros Hsv Hsd Hen.
  destruct (seekLabels_service service Hsd) as (job & out & Hs & He & Hsch).
  exists job. split; [done |].
  unfold crudJob, cleared. rewrite Hsv, Hs, He, Hen. cbn [negb].
  unfold Cron.AddJob.
  destruct (jobs (sc s) !! serviceName) as [jobID |];
    destruct (cron_Parse (Schedule job)) as [err |]; cbn; auto.
  split; [done | by destruct (sc s)].
Qed.

Lemma crudJob_disabled serviceName (s : Sys W) service w :
  docker_Service serviceName (world s) = (inl service, w) ->
  existsb isScaleDown (svLabels service) = false ->
  labelEnable (svLabels service) = false ->
  fst (crudJob serviceName s)
    = (bool_decide (is_Some (jobs (sc s) !! serviceName)), None) /\
  sc (snd (crudJob serviceName s)) = cleared serviceName (sc s).
Proof.
  intros Hsv Hsd Hen.
  destruct (seekLabels_service service Hsd) as (job & out & Hs & He & Hsch).
  unfold crudJob, cleared. rewrite Hsv, Hs, He, Hen. cbn [negb].
  destruct (jobs (sc s) !! serviceName) as [jobID |]; cbn; auto.
Qed.

Lemma registry_ok_cleared serviceName s :
  registry_ok s -> registry_ok (cleared serviceName s).
Proof.
  intros Hok. unfold cleared.
  destruct (jobs s !! serviceName) eqn:Hj; [by apply registry_ok_removeJob | done].
Qed.

Lemma cleared_lookup serviceName s : jobs (cleared serviceName s) !! serviceName = None.
Proof.
  unfold cleared. destruct (jobs s !! serviceName) eqn:Hj; [| done].
  cbn. apply lookup_delete_eq.
Qed.

(** C4: when the fetch of the service fails, a registered service loses its
    entry, both in the registry and in the cron engine, and the reconcile
    reports (true, nil); an unregistered one is left as it is and the
    reconcile reports (false, nil). No error is returned in either case. *)
Theorem crudJob_service_gone serviceName (s : Sys W) (err : error) w :
  docker_Service serviceName (world s) = (inr err, w) ->
  match jobs (sc s) !! serviceName with
  | Some id =>
      fst (crudJob serviceName s) = (true, None) /\
      jobs (sc (snd (crudJob serviceName s))) = delete serviceName (jobs (sc s)) /\
      registered (sc (snd (crudJob serviceName s))) serviceName = None /\
      (forall e, e ∈ Cron.entries (cron (sc (snd (crudJob serviceName s)))) <->
                 e ∈ Cron.entries (cron (sc s)) /\ Cron.ID e <> id)
  | None =>
      fst (crudJob serviceName s) = (false, None) /\
      sc (snd (crudJob serviceName s)) = sc s
  end.
Proof.
  intros Hsv. unfold crudJob. rewrite Hsv.
  destruct (jobs (sc s) !! serviceName) as [id |] eqn:Hj; cbn; [| done].
  split; [done |]. split; [done |]. split; [apply registered_removeJob |].
  intros e. apply Remove_elem.
Qed.

(** C5: a service carrying scaledown=true is skipped: the reconcile returns
    (false, nil) and leaves the registry and the cron engine exactly as they
    were, whatever the other labels are and wherever the label comes in the
    iteration. *)
Theorem crudJob_scaledown serviceName (s : Sys W) service w :
  docker_Service serviceName (world s) = (inl service, w) ->
  ("swarm.cronjob.scaledown", "true") ∈ svLabels service ->
  fst (crudJob serviceName s) = (false, None) /\
  sc (snd (crudJob serviceName s)) = sc s /\
  registered (sc (snd (crudJob serviceName s))) serviceName
    = registered (sc s) serviceName.
Proof.
  intros Hsv Hin.
  assert (Hex : existsb isScaleDown (svLabels service) = true).
  { apply existsb_exists. eexists. split; [by apply list_elem_of_In |].
    reflexivity. }
  pose proof (seekLabels_scaledown (svName service) _ Hex (newWorkerJob service))
    as Hnone.
  unfold crudJob. rewrite Hsv.
  destruct (seekLabels _ _ _) as [r out]. cbn in Hnone. subst r. cbn. auto.
Qed.

(** C8: updating an enabled service is not atomic. When the service is
    registered and the new schedule is refused by the cron parser, the
    reconcile returns (false, err), and yet the entry it had is gone from the
    registry and from the cron engine: the state has changed although
    "changed" is false. *)
Theorem crudJob_update_not_atomic serviceName (s : Sys W) service w id err :
  jobs (sc s) !! serviceName = Some id ->
  docker_Service serviceName (world s) = (inl service, w) ->
  existsb isScaleDown (svLabels service) = false ->
  labelEnable (svLabels service) = true ->
  cron_Parse (labelSchedule (svLabels service)) = Some err ->
  fst (crudJob serviceName s) = (false, Some err) /\
  sc (snd (crudJob serviceName s)) = removeJob serviceName id (sc s) /\
  jobs (sc (snd (crudJob serviceName s))) !! serviceName = None /\
  (forall e, e ∈ Cron.entries (cron (sc (snd (crudJob serviceName s)))) ->
             Cron.ID e <> id) /\
  sc (snd (crudJob serviceName s)) <> sc s.
Proof.
  intros Hj Hsv Hsd Hen Hbad.
  destruct (crudJob_enabled _ _ _ _ Hsv Hsd Hen) as (job & Hsch & Hres).
  rewrite Hsch, Hbad in Hres. destruct Hres as [Hr Hsc].
  unfold cleared in Hsc. rewrite Hj in Hsc. rewrite Hr, Hsc.
  repeat split.
  - cbn. apply lookup_delete_eq.
  - intros e He. by apply Remove_elem in He as [_ ?].
  - intros Heq. apply (f_equal (fun x => jobs x !! serviceName)) in Heq.
    cbn in Heq. rewrite lookup_delete_eq, Hj in Heq. discriminate.
Qed.

(** ** Reconciling keeps the registry consistent *)

Lemma crudJob_registry_ok serviceName (s : Sys W) :
  registry_ok (sc s) -> registry_ok (sc (snd (crudJob serviceName s))).
Proof.
  intros Hok. unfold crudJob.
  destruct (docker_Service serviceName (world s)) as [[service | err] w].
  - destruct (seekLabels _ _ _) as [[job |] out]; [| done].
    destruct (Enable job); cbn [negb].
    + pose proof (registry_ok_cleared serviceName _ Hok) as Hc.
      pose proof (cleared_lookup serviceName (sc s)) as Hl.
      pose proof (registry_ok_register _ serviceName (Schedule job) job Hc Hl) as Hr.
      unfold cleared in Hc, Hl, Hr. unfold register in Hr. unfold Cron.AddJob.
      destruct (jobs (sc s) !! serviceName) as [jobID |];
        destruct (cron_Parse (Schedule job)); cbn; try done.
      by destruct (sc s).
    + destruct (jobs (sc s) !! serviceName) as [jobID |] eqn:Hj; cbn; [| done].
      by apply registry_ok_removeJob.
  - destruct (jobs (sc s) !! serviceName) as [jobID |] eqn:Hj; cbn; [| done].
    by apply registry_ok_removeJob.
Qed.

Lemma Remove_fresh id (l : list Cron.Entry) :
  (forall e, e ∈ l -> Cron.ID e <> id) ->
  filter (fun e => negb (Cron.ID e =? id)) l = l.
Proof.
  induction l as [| a l IH]; intros Hl; [done |].
  rewrite filter_cons_True.
  - f_equal. apply IH. intros e He. apply Hl. by right.
  - apply negb_True. rewrite Is_true_true, Z.eqb_eq.
    apply Hl. by left.
Qed.

(** Removing a registration just made gives back the registry it was made
    on, but for the identifier counter, which has moved on. *)
Lemma removeJob_register s name spec job :
  registry_ok s -> jobs s !! name = None ->
  removeJob name (Cron.nextID (cron s) + 1) (register name spec job s)
  = mkSC (Cron.mkCron (Cron.entries (cron s)) (Cron.nextID (cron s) + 1)) (jobs s).
Proof.
  intros Hok Hname. unfold removeJob, register, Cron.Remove. cbn. f_equal.
  - f_equal. rewrite filter_app, Remove_fresh.
    + rewrite filter_singleton_False; [by rewrite app_nil_r | exact []|].
      cbn. rewrite Z.eqb_refl. cbn. tauto.
    + intros e He Heq. pose proof (ok_fresh _ Hok e He). lia.
  - rewrite delete_insert_eq. by apply delete_id.
Qed.

Lemma registry_ok_tick s :
  registry_ok s ->
  registry_ok (mkSC (Cron.mkCron (Cron.entries (cron s)) (Cron.nextID (cron s) + 1))
                    (jobs s)).
Proof.
  intros [Hent Hown Hinj Hnd Hfr]. split; cbn; auto.
  intros e He. specialize (Hfr e He). lia.
Qed.

Lemma registered_register_ne s name n spec job :
  registry_ok s -> jobs s !! name = None -> n <> name ->
  registered (register name spec job s) n = registered s n.
Proof.
  intros Hok Hname Hne. unfold registered.
  pose proof (registry_ok_register _ name spec job Hok Hname) as Hok'.
  unfold register in *. cbn. rewrite lookup_insert_ne; [| done].
  destruct (jobs s !! n) as [i |] eqn:Hn; [| done].
  destruct (ok_entry _ Hok _ _ Hn) as (e & He & Hid & _).
  rewrite (find_entry i _ e (ok_nodup _ Hok) He Hid).
  apply (find_entry i _ e (ok_nodup _ Hok')); [| done].
  cbn. apply elem_of_app. by left.
Qed.

(** C7: for a service with a schedule the cron parser accepts, reconciling it
    enabled, then disabled, then enabled again, each time reports a change
    without error; in between the service is unregistered; at the end it is
    registered again with the same schedule, the registry has the services
    (hence the size) it had after the first reconcile, the cron engine has as
    many entries, the other services keep their entries, and no entry is
    left without a service. *)
Theorem crudJob_enable_toggle serviceName sched (s0 : Sys W)
    on1 off on2 w1 wa w2 wb w3 :
  registry_ok (sc s0) ->
  cron_Parse sched = None ->
  asksFor on1 "true" sched ->
  asksFor off "false" sched ->
  asksFor on2 "true" sched ->
  docker_Service serviceName (world s0) = (inl on1, w1) ->
  docker_Service serviceName wa = (inl off, w2) ->
  docker_Service serviceName wb = (inl on2, w3) ->
  let r1 := crudJob serviceName s0 in
  let r2 := crudJob serviceName (atWorld wa (snd r1)) in
  let r3 := crudJob serviceName (atWorld wb (snd r2)) in
  let reg1 := sc (snd r1) in
  let reg2 := sc (snd r2) in
  let reg3 := sc (snd r3) in
  fst r1 = (true, None) /\ fst r2 = (true, None) /\ fst r3 = (true, None) /\
  registered reg2 serviceName = None /\
  (exists e1 e3,
      registered reg1 serviceName = Some e1 /\ Cron.Spec e1 = sched /\
      registered reg3 serviceName = Some e3 /\ Cron.Spec e3 = sched) /\
  dom (jobs reg3) = dom (jobs reg1) /\
  size (jobs reg3) = size (jobs reg1) /\
  length (Cron.entries (cron reg3)) = length (Cron.entries (cron reg1)) /\
  (forall n, n <> serviceName -> registered reg3 n = registered reg1 n) /\
  registry_ok reg3.
Proof.
  intros Hok Hparse (Hsd1 & Hen1 & Hsch1) (Hsd2 & Hen2 & _) (Hsd3 & Hen3 & Hsch3)
         Hsv1 Hsv2 Hsv3 r1 r2 r3 reg1 reg2 reg3.
  set (A := cleared serviceName (sc s0)).
  assert (HokA : registry_ok A) by by apply registry_ok_cleared.
  assert (HlA : jobs A !! serviceName = None) by apply cleared_lookup.
  set (B := mkSC (Cron.mkCron (Cron.entries (cron A)) (Cron.nextID (cron A) + 1))
                 (jobs A)).
  assert (HokB : registry_ok B) by by apply registry_ok_tick.
  (* first reconcile: enabled *)
  assert (Hon : forall labels, labelOf "swarm.cronjob.enable" labels = Some "true" ->
                               labelEnable labels = true).
  { intros labels Hl. unfold labelEnable. by rewrite Hl. }
  destruct (crudJob_enabled serviceName s0 on1 w1 Hsv1 Hsd1 (Hon _ Hen1))
    as (job1 & Hj1 & Hres1).
  unfold labelSchedule in Hj1. rewrite Hsch1 in Hj1. cbn in Hj1.
  rewrite Hj1, Hparse in Hres1. cbn zeta in Hres1. fold A in Hres1.
  destruct Hres1 as [Hr1 Hreg1]. fold r1 in Hr1, Hreg1. fold reg1 in Hreg1.
  (* second reconcile: disabled *)
  assert (Hoff : labelEnable (svLabels off) = false).
  { unfold labelEnable. by rewrite Hen2. }
  destruct (crudJob_disabled serviceName (atWorld wa (snd r1)) off w2 Hsv2 Hsd2 Hoff)
    as [Hr2 Hreg2].
  fold r2 in Hr2, Hreg2. fold reg2 in Hreg2. cbn [atWorld sc] in Hr2, Hreg2.
  fold reg1 in Hr2, Hreg2.
  assert (Hl1 : jobs reg1 !! serviceName = Some (Cron.nextID (cron A) + 1)).
  { rewrite Hreg1. unfold register. cbn. apply lookup_insert_eq. }
  rewrite Hl1 in Hr2. unfold cleared in Hreg2. rewrite Hl1 in Hreg2.
  rewrite Hreg1, (removeJob_register A _ _ _ HokA HlA) in Hreg2. fold B in Hreg2.
  (* third reconcile: enabled again *)
  destruct (crudJob_enabled serviceName (atWorld wb (snd r2)) on2 w3 Hsv3 Hsd3
              (Hon _ Hen3)) as (job3 & Hj3 & Hres3).
  unfold labelSchedule in Hj3. rewrite Hsch3 in Hj3. cbn in Hj3.
  rewrite Hj3, Hparse in Hres3. cbn zeta in Hres3.
  fold r3 in Hres3. cbn [atWorld sc] in Hres3. fold reg2 in Hres3.
  rewrite Hreg2 in Hres3. unfold cleared in Hres3.
  assert (HlB : jobs B !! serviceName = None) by exact HlA.
  rewrite HlB in Hres3. destruct Hres3 as [Hr3 Hreg3]. fold reg3 in Hreg3.
  (* the three registries compared *)
  split; [done |]. split; [done |]. split; [done |].
  split. { by rewrite Hreg2; unfold registered; rewrite HlB. }
  split.
  { do 2 eexists. rewrite Hreg1, Hreg3.
    rewrite (registered_register A _ _ _ HokA), (registered_register B _ _ _ HokB).
    by repeat split. }
  split. { rewrite Hreg1, Hreg3. unfold register. cbn. by rewrite !dom_insert_L. }
  split.
  { rewrite Hreg1, Hreg3. unfold register. cbn [jobs].
    by rewrite !map_size_insert_None. }
  split. { rewrite Hreg1, Hreg3. unfold register. cbn. by rewrite !length_app. }
  split.
  { intros n Hn. rewrite Hreg1, Hreg3.
    rewrite (registered_register_ne A _ _ _ _ HokA HlA Hn).
    by rewrite (registered_register_ne B _ _ _ _ HokB HlB Hn). }
  rewrite Hreg3. by apply registry_ok_register.
Qed.

(** ** The completion waiter *)

Lemma baselineKeys_from (tasks : list TaskInfo) :
  forall (keys : gmap string TaskInfo) i,
    foldl (fun keys x => <[tkID x := x]> keys) keys tasks !! i = None <->
    keys !! i = None /\ i ∉ tkID <$> tasks.
Proof.
  induction tasks as [| a l IH]; intros keys i; cbn.
  - split; [intros; split; [done | apply not_elem_of_nil] | tauto].
  - rewrite IH, lookup_insert_None, not_elem_of_cons.
    split; [intros [[? ?] ?] | intros [? [? ?]]]; repeat split; auto.
Qed.

Lemma isNew_baseline tasks x :
  isNew (baselineKeys tasks) x = true <-> tkID x ∉ tkID <$> tasks.
Proof.
  unfold isNew, baselineKeys.
  pose proof (baselineKeys_from tasks ∅ (tkID x)) as Hk.
  rewrite lookup_empty in Hk.
  destruct (foldl _ _ _ !! tkID x); split; try done.
  - intros Hn. by destruct Hk as [_ Hk]; specialize (Hk (conj eq_refl Hn)).
  - intros _. by apply Hk.
Qed.

Lemma find_new_task tasks (lst : list TaskInfo) x :
  x ∈ lst -> tkID x ∉ tkID <$> tasks ->
  exists y, find (isNew (baselineKeys tasks)) lst = Some y.
Proof.
  intros Hx Hnew. destruct (find _ lst) as [y |] eqn:Hf; [eauto |].
  apply list_elem_of_In in Hx.
  pose proof (find_none _ _ Hf _ Hx) as Hn.
  apply isNew_baseline in Hnew. congruence.
Qed.

Lemma find_no_new_task tasks (lst : list TaskInfo) :
  (forall x, x ∈ lst -> tkID x ∈ tkID <$> tasks) ->
  find (isNew (baselineKeys tasks)) lst = None.
Proof.
  intros Hall. destruct (find _ lst) as [y |] eqn:Hf; [| done].
  apply find_some in Hf as [Hy Hn]. apply list_elem_of_In in Hy.
  apply isNew_baseline in Hn. by destruct Hn; apply Hall.
Qed.

Lemma workerOfEntry_ok s name id :
  registry_ok s -> jobs s !! name = Some id ->
  exists job, workerOfEntry id s = Returns job.
Proof.
  intros Hok Hj. destruct (ok_entry _ Hok _ _ Hj) as (e & He & Hid & [job Hjob]).
  exists job. unfold workerOfEntry, Cron.Entry_.
  by rewrite (find_entry id _ e (ok_nodup _ Hok) He Hid), Hjob.
Qed.

(** Skipping the idle polls of the loop. *)
Lemma pollLoop_idle n name xID deadline :
  forall w w' polled,
    afterIdlePolls n name xID deadline w = Some w' ->
    exists polled', forall tr fuel,
      pollLoop (n + fuel) name xID deadline polled w tr
      = pollLoop fuel name xID deadline polled' w' tr.
Proof.
  induction n as [| n IH]; intros w w' polled Hidle; cbn in *.
  - inversion Hidle; subst. by exists polled.
  - destruct (deadline <=? time_Now w); [discriminate |].
    rewrite andb_false_r.
    destruct (docker_TaskList name w) as [[tl e] w1].
    destruct (scanTasks xID tl w1); [discriminate |]. by apply IH.
Qed.

(** The scan stops at the first entry of the list that carries the watched
    identifier in a terminal state. *)
Lemma scanTasks_terminal xID pre tsk post (w : W) :
  (forall t, t ∈ pre -> tkID t <> xID) -> tkID tsk = xID ->
  scanTasks xID (pre ++ tsk :: post) w =
  match tkState tsk with
  | TaskStateComplete =>
      let '((logs, err), w') := docker_TaskLogs (tkID tsk) w in
      Some ((logs, None), w',
            logIfErr err (Log Error "" ("Cannot get logs for " +:+ tkID tsk)))
  | TaskStateFailed => Some (("", Some (errors.New (tkErr tsk))), w, [])
  | _ => scanTasks xID post w
  end.
Proof.
  intros Hpre Hid. induction pre as [| a pre IH]; cbn.
  - rewrite Hid, String.eqb_refl. by destruct (tkState tsk).
  - destruct (String.eqb_spec (tkID a) xID) as [Heq | _].
    + by destruct (Hpre a (list_elem_of_here _ _)).
    + apply IH. intros t Ht. apply Hpre. by right.
Qed.

Lemma runCount_app tr1 tr2 : runCount (tr1 ++ tr2) = (runCount tr1 + runCount tr2)%nat.
Proof. unfold runCount. by rewrite filter_app, length_app. Qed.

Lemma runCount_Log lvl service msg : runCount [Log lvl service msg] = 0%nat.
Proof. reflexivity. Qed.

Lemma scanTasks_logs_only xID tl (w : W) r w' out :
  scanTasks xID tl w = Some (r, w', out) -> runCount out = 0%nat.
Proof.
  induction tl as [| tsk tl IH]; cbn; [discriminate |].
  destruct (String.eqb (tkID tsk) xID); [| exact IH].
  destruct (tkState tsk); try exact IH.
  - destruct (docker_TaskLogs (tkID tsk) w) as [[logs [err |]] w1];
      intros Hs; inversion Hs; reflexivity.
  - intros Hs; inversion Hs; reflexivity.
Qed.

Lemma pollLoop_logs_only fuel name xID deadline :
  forall polled (w : W) tr,
    runCount (snd (pollLoop fuel name xID deadline polled w tr)) = runCount tr.
Proof.
  induction fuel as [| fuel IH]; intros polled w tr; cbn [pollLoop]; [done |].
  destruct (polled && (deadline <=? time_Now w)); cbn [snd].
  - rewrite runCount_app, runCount_Log. lia.
  - destruct (docker_TaskList name w) as [[tl e] w1].
    destruct (scanTasks xID tl w1) as [[[r w2] out] |] eqn:Hs; [| apply IH].
    cbn [snd]. rewrite runCount_app, (scanTasks_logs_only _ _ _ _ _ _ Hs). lia.
Qed.

Lemma WaitForEnd_logs_only fuel name tasks (s : Sys W) :
  runCount (trace (snd (WaitForEnd fuel name tasks s))) = runCount (trace s).
Proof.
  unfold WaitForEnd.
  destruct (match jobs (sc s) !! name with Some _ => _ | None => _ end)
    as [wc | |]; try done.
  destruct (docker_TaskList name (world s)) as [[lst [e |]] w1]; [done |].
  destruct (find _ lst) as [x |]; [| done].
  destruct wc as [job |]; cbn [snd trace].
  - pose proof (pollLoop_logs_only (S fuel) name (tkID x)
                  (time_Now w1 + eventTimeout job) false w1
                  ((trace s ++ [Log Info "" ("Новая задача " +:+ tkID x)])
                     ++ [Log Info "" ("Timiout - " +:+ EventTimeout job)])) as Hp.
    destruct (pollLoop _ _ _ _ _ _ _) as [[r w2] tr3]. cbn [snd trace] in *.
    rewrite Hp, !runCount_app, !runCount_Log. lia.
  - rewrite runCount_app, runCount_Log. lia.
Qed.

(** C9: [WaitForEnd] is unsafe for a service that is not registered: when
    the task list it fetches holds a task outside the baseline, it
    dereferences the nil worker and panics, whatever the step bound, instead
    of returning an error. *)
Theorem WaitForEnd_unregistered_panics fuel serviceName baseline (s : Sys W)
    lst w1 x :
  jobs (sc s) !! serviceName = None ->
  docker_TaskList serviceName (world s) = ((lst, None), w1) ->
  x ∈ lst -> tkID x ∉ tkID <$> baseline ->
  fst (WaitForEnd fuel serviceName baseline s) = Panics.
Proof.
  intros Hj Hl Hx Hnew. destruct (find_new_task baseline lst x Hx Hnew) as [y Hy].
  unfold WaitForEnd. by rewrite Hj, Hl, Hy.
Qed.

(** C10, as the program has it: when the job's EventTimeout string does
    not parse as a duration, the empty string of a job without the label
    included, [WaitForEnd] drops the parse error without a log line and
    waits with a zero timeout. Once a task outside the baseline is listed it
    makes a single poll: if that poll shows the watched task Complete or
    Failed, the wait returns that outcome; otherwise it returns the error
    "Timeout" right after that poll, without another one, even if the task
    would have completed later. The clock is taken not to run backwards over
    the poll. *)
Theorem WaitForEnd_unparsable_timeout fuel serviceName baseline (s : Sys W)
    id job lst w1 x tl e w2 :
  jobs (sc s) !! serviceName = Some id ->
  workerOfEntry id (sc s) = Returns job ->
  EventTimeout job = "" \/ time_ParseDuration (EventTimeout job) = None ->
  docker_TaskList serviceName (world s) = ((lst, None), w1) ->
  x ∈ lst -> tkID x ∉ tkID <$> baseline ->
  docker_TaskList serviceName w1 = ((tl, e), w2) ->
  time_Now w1 <= time_Now w2 ->
  eventTimeout job = 0 /\
  exists y,
    find (isNew (baselineKeys baseline)) lst = Some y /\
    let tr := (trace s ++ [Log Info "" ("Новая задача " +:+ tkID y)])
                ++ [Log Info "" ("Timiout - " +:+ EventTimeout job)] in
    match scanTasks (tkID y) tl w2 with
    | Some (r, w3, out) =>
        WaitForEnd fuel serviceName baseline s
        = (Returns r, mkSys (sc s) w3 (tr ++ out))
    | None =>
        WaitForEnd (S fuel) serviceName baseline s
        = (Returns ("", Some (errors.New "Timeout")),
           mkSys (sc s) w2 (tr ++ [Log Error "" "Timeout"]))
    end.
Proof.
  intros Hj Hwc Hbad Hl Hx Hnew Hpoll Hclock.
  assert (Hzero : eventTimeout job = 0).
  { unfold eventTimeout. destruct Hbad as [-> | ->]; [| done].
    by rewrite time_ParseDuration_empty. }
  split; [done |].
  destruct (find_new_task baseline lst x Hx Hnew) as [y Hy]. exists y.
  split; [done |]. cbn zeta.
  unfold WaitForEnd. rewrite Hj, Hwc, Hl, Hy, Hzero.
  destruct (scanTasks (tkID y) tl w2) as [[[r w3] out] |] eqn:Hs.
  - cbn [pollLoop andb]. by rewrite Hpoll, Hs.
  - cbn [pollLoop andb]. rewrite Hpoll, Hs.
    destruct (Z.leb_spec (time_Now w1 + 0) (time_Now w2)) as [_ | Hlt]; [done | lia].
Qed.

Lemma WaitForEnd_baseline_only fuel serviceName baseline (s : Sys W) lst w1 :
  (forall id, jobs (sc s) !! serviceName = Some id ->
              exists job, workerOfEntry id (sc s) = Returns job) ->
  docker_TaskList serviceName (world s) = ((lst, None), w1) ->
  (forall x, x ∈ lst -> tkID x ∈ tkID <$> baseline) ->
  WaitForEnd fuel serviceName baseline s
  = (Returns ("", Some (errors.New "Не найден список задач")),
     mkSys (sc s) w1 (trace s)).
Proof.
  intros Hwc Hl Hall. unfold WaitForEnd.
  rewrite Hl, (find_no_new_task baseline lst Hall).
  destruct (jobs (sc s) !! serviceName) as [id |] eqn:Hj; [| done].
  destruct (Hwc id eq_refl) as [job Hjob]. by rewrite Hjob.
Qed.

(** C1, as the program has it: when the task list [WaitForEnd] fetches holds
    no task outside the baseline, it returns at once, after that single
    listing and without waiting for any timeout, the error "Не найден список
    задач"; the registry and the trace are left as they were. *)
Theorem WaitForEnd_no_new_task fuel serviceName baseline (s : Sys W) lst w1 :
  registry_ok (sc s) ->
  docker_TaskList serviceName (world s) = ((lst, None), w1) ->
  (forall x, x ∈ lst -> tkID x ∈ tkID <$> baseline) ->
  WaitForEnd fuel serviceName baseline s
  = (Returns ("", Some (errors.New "Не найден список задач")),
     mkSys (sc s) w1 (trace s)).
Proof.
  intros Hok Hl Hall. apply WaitForEnd_baseline_only with (lst := lst); try done.
  intros id Hj. by apply (workerOfEntry_ok _ serviceName).
Qed.

(** C3, as the program has it: [WaitForEnd] watches one task, the first of
    the list it fetches that is outside the baseline. After any number [n]
    of polls that did not show that task Complete or Failed, a poll made
    before the deadline that shows it Complete fetches its logs and returns
    them with a nil error, and one that shows it Failed returns the task's
    error; in both cases at that poll, with no further listing. Tasks with
    another identifier are not looked at. *)
Theorem WaitForEnd_watched_task_terminal serviceName baseline (s : Sys W)
    id job lst w1 x n w' pre tsk post e w2 fuel :
  jobs (sc s) !! serviceName = Some id ->
  workerOfEntry id (sc s) = Returns job ->
  docker_TaskList serviceName (world s) = ((lst, None), w1) ->
  find (isNew (baselineKeys baseline)) lst = Some x ->
  let deadline := time_Now w1 + eventTimeout job in
  afterIdlePolls n serviceName (tkID x) deadline w1 = Some w' ->
  time_Now w' < deadline ->
  docker_TaskList serviceName w' = ((pre ++ tsk :: post, e), w2) ->
  (forall t, t ∈ pre -> tkID t <> tkID x) ->
  tkID tsk = tkID x ->
  (n < fuel)%nat ->
  (tkState tsk = TaskStateComplete ->
     fst (WaitForEnd fuel serviceName baseline s)
       = Returns (fst (fst (docker_TaskLogs (tkID x) w2)), None) /\
     world (snd (WaitForEnd fuel serviceName baseline s))
       = snd (docker_TaskLogs (tkID x) w2)) /\
  (tkState tsk = TaskStateFailed ->
     fst (WaitForEnd fuel serviceName baseline s)
       = Returns ("", Some (errors.New (tkErr tsk))) /\
     world (snd (WaitForEnd fuel serviceName baseline s)) = w2).
Proof.
  intros Hj Hwc Hl Hx deadline Hidle Hbefore Hpoll Hpre Hid Hfuel.
  assert (Hw : forall tr,
    pollLoop (S fuel) serviceName (tkID x) deadline false w1 tr
    = match scanTasks (tkID x) (pre ++ tsk :: post) w2 with
      | Some (r, w3, out) => (Returns r, w3, tr ++ out)
      | None => pollLoop (fuel - n) serviceName (tkID x) deadline true w2 tr
      end).
  { intros tr. replace (S fuel) with (n + S (fuel - n))%nat by lia.
    destruct (pollLoop_idle n _ _ _ _ _ false Hidle) as [polled' Hskip].
    rewrite Hskip. cbn [pollLoop].
    destruct (Z.leb_spec deadline (time_Now w')) as [Hle | _]; [lia |].
    by rewrite andb_false_r, Hpoll. }
  rewrite (scanTasks_terminal _ _ _ _ w2 Hpre Hid) in Hw.
  unfold WaitForEnd. rewrite Hj, Hwc, Hl, Hx. fold deadline.
  split; intros Hst; rewrite Hst in Hw; rewrite Hw, ?Hid; [| done].
  by destruct (docker_TaskLogs (tkID x) w2) as [[logs err] w3].
Qed.

(** ** The trigger endpoint *)

Lemma RunJobByEvent_wrong_key serviceName key (s : Sys W) id job :
  jobs (sc s) !! serviceName = Some id ->
  workerOfEntry id (sc s) = Returns job ->
  EventRun job = true ->
  EventRunKey job <> key ->
  RunJobByEvent serviceName key s
  = (Returns tt,
     logTo (Log Info "" ("Wrong key for run job for service '"
                           +:+ serviceName +:+ "'")) s).
Proof.
  intros Hj Hwc Hev Hkey. unfold RunJobByEvent. rewrite Hj, Hwc, Hev.
  by destruct (String.eqb_spec (EventRunKey job) key).
Qed.

(** C6, as the program has it: for a registered service with event runs
    enabled, a request with another key than the job's makes [RunJobByEvent]
    log "Wrong key" and run nothing, and the whole request invokes no
    [Job.Run()]. The handler then waits as for any request: its answer is an
    error (500) when the baseline listing fails, and when the listing made
    by the wait fails or shows no task outside the baseline. *)
Theorem handle_wrong_key fuel serviceName key (s : Sys W) id job :
  jobs (sc s) !! serviceName = Some id ->
  workerOfEntry id (sc s) = Returns job ->
  EventRun job = true ->
  EventRunKey job <> key ->
  runCount (trace (snd (RunJobByEvent serviceName key s))) = runCount (trace s) /\
  world (snd (RunJobByEvent serviceName key s)) = world s /\
  runCount (trace (snd (handle fuel serviceName key s))) = runCount (trace s) /\
  (forall tasks e w1,
      Tasks serviceName (world s) = ((tasks, Some e), w1) ->
      fst (handle fuel serviceName key s) = Returns (500, e)) /\
  (forall tasks w1 lst e w2,
      Tasks serviceName (world s) = ((tasks, None), w1) ->
      docker_TaskList serviceName (time_Sleep (5 * 10 ^ 9) w1) = ((lst, e), w2) ->
      is_Some e \/ (forall x, x ∈ lst -> tkID x ∈ tkID <$> tasks) ->
      exists msg, fst (handle fuel serviceName key s) = Returns (500, msg)).
Proof.
  intros Hj Hwc Hev Hkey.
  assert (Hrun : forall w,
    RunJobByEvent serviceName key (mkSys (sc s) w (trace s))
    = (Returns tt,
       mkSys (sc s) w
             (trace s ++ [Log Info "" ("Wrong key for run job for service '"
                                         +:+ serviceName +:+ "'")]))).
  { intros w. by rewrite (RunJobByEvent_wrong_key _ _ _ id job). }
  split; [| split; [| split; [| split]]].
  - rewrite (RunJobByEvent_wrong_key _ _ _ id job); try done.
    unfold logTo. cbn [snd trace]. rewrite runCount_app, runCount_Log. lia.
  - by rewrite (RunJobByEvent_wrong_key _ _ _ id job).
  - unfold handle. destruct (Tasks serviceName (world s)) as [[tasks [e |]] w1];
      [done |].
    rewrite Hrun. cbn [sc world trace].
    match goal with
    | |- context [WaitForEnd fuel serviceName tasks ?s3] =>
        pose proof (WaitForEnd_logs_only fuel serviceName tasks s3) as Hw;
        destruct (WaitForEnd fuel serviceName tasks s3) as [[[msg [e |]] | |] s4]
    end; cbn [snd trace] in *; rewrite Hw, runCount_app, runCount_Log; lia.
  - intros tasks e w1 Ht. unfold handle. by rewrite Ht.
  - intros tasks w1 lst e w2 Ht Hl Hcase. unfold handle. rewrite Ht, Hrun.
    cbn [sc world trace].
    destruct e as [e |].
    + exists e. unfold WaitForEnd. cbn [sc world trace]. rewrite Hj, Hwc, Hl. done.
    + destruct Hcase as [[e He] | Hall]; [discriminate |].
      eexists. rewrite WaitForEnd_baseline_only with (lst := lst) (w1 := w2);
        try done.
      cbn [sc]. intros id' Hid. rewrite Hj in Hid. inversion Hid; subst. eauto.
Qed.

(** ** The replicas label *)

Lemma parseUintLoop_syntax s :
  forall n, snd (strconv.parseUintLoop s n) = Some strconv.ErrSyntax ->
            fst (strconv.parseUintLoop s n) = 0.
Proof.
  induction s as [| ch rest IH]; intros n; cbn [strconv.parseUintLoop].
  - discriminate.
  - repeat match goal with
           | |- context [if ?b then _ else _] => destruct b
           end; cbn; try done; try discriminate. apply IH.
Qed.

(** A replicas label that is not a number leaves zero in the job, and so
    does "0"; the job keeps whatever the parser returned. *)
Lemma seekLabels_replicas service labels j job out n :
  seekLabels service labels j = (Some job, out) ->
  labelOf "swarm.cronjob.replicas" labels = Some n ->
  Replicas job = fst (strconv.ParseUint n) /\
  (snd (strconv.ParseUint n) = Some strconv.ErrSyntax -> Replicas job = 0).
Proof.
  intros Hs Hn. destruct (seekLabels_fields _ _ _ _ _ Hs) as (_ & _ & _ & Hr & _).
  rewrite Hn in Hr. cbn in Hr. split; [done |].
  rewrite Hr. unfold strconv.ParseUint. destruct n; [done |].
  apply parseUintLoop_syntax.
Qed.

End Properties.

(** * The properties on the scripted daemon *)

Import Script.

Lemma registry_ok_started lists logs : registry_ok (sc (started lists logs)).
Proof. apply crudJob_registry_ok, registry_ok_New. Qed.

(** C4 at the scripted daemon: "backup" is registered and has just been
    removed from the cluster. *)
Lemma crudJob_service_gone_witness :
  fst (docker_Service "backup" (world gone)) = inr "service backup not found" /\
  jobs (sc gone) !! "backup" = Some 1 /\
  fst (crudJob "backup" gone) = (true, None) /\
  registered (sc (snd (crudJob "backup" gone))) "backup" = None.
Proof.
  assert (Hf : docker_Service "backup" (world gone)
               = (inr "service backup not found",
                  snd (docker_Service "backup" (world gone))))
    by reflexivity.
  assert (Hj : jobs (sc gone) !! "backup" = Some 1) by reflexivity.
  split; [reflexivity |]. split; [exact Hj |].
  pose proof (crudJob_service_gone "backup" gone _ _ Hf) as Hthm.
  rewrite Hj in Hthm. destruct Hthm as (Hr & _ & Hreg & _). by split.
Defined.

(** C5 at the scripted daemon: "backup" is registered, enabled with a valid
    schedule, and carries scaledown=true. *)
Lemma crudJob_scaledown_witness :
  ("swarm.cronjob.scaledown", "true") ∈ svLabels scaledDown /\
  is_Some (registered (sc (later [inl scaledDown])) "backup") /\
  fst (crudJob "backup" (later [inl scaledDown])) = (false, None) /\
  sc (snd (crudJob "backup" (later [inl scaledDown])))
    = sc (later [inl scaledDown]).
Proof.
  assert (Hin : ("swarm.cronjob.scaledown", "true") ∈ svLabels scaledDown).
  { apply list_elem_of_In. cbn. auto. }
  split; [exact Hin |]. split; [by eexists |].
  pose proof (crudJob_scaledown "backup" (later [inl scaledDown]) scaledDown
                (snd (docker_Service "backup" (world (later [inl scaledDown]))))
                eq_refl Hin) as (Hr & Hsc & _).
  by split.
Defined.

(** C8 at the scripted daemon: "backup" is registered and its schedule label
    has been changed to one the parser refuses. *)
Lemma crudJob_update_not_atomic_witness :
  is_Some (registered (sc (later [inl misscheduled])) "backup") /\
  fst (crudJob "backup" (later [inl misscheduled]))
    = (false, Some "invalid cron expression") /\
  registered (sc (snd (crudJob "backup" (later [inl misscheduled])))) "backup"
    = None /\
  Cron.entries (cron (sc (snd (crudJob "backup" (later [inl misscheduled])))))
    = [].
Proof.
  split; [by eexists |].
  pose proof (crudJob_update_not_atomic "backup" (later [inl misscheduled])
                misscheduled
                (snd (docker_Service "backup" (world (later [inl misscheduled]))))
                1 "invalid cron expression"
                eq_refl eq_refl eq_refl eq_refl eq_refl)
    as (Hr & Hsc & Hl & _ & _).
  split; [exact Hr |]. rewrite Hsc. by split.
Defined.

(** C7 at the scripted daemon: "backup" toggled on, off and on. *)
Lemma crudJob_enable_toggle_witness :
  let s1 := snd (crudJob "backup" toggled) in
  let s2 := snd (crudJob "backup" s1) in
  let s3 := snd (crudJob "backup" s2) in
  registered (sc s2) "backup" = None /\
  (exists e1 e3,
      registered (sc s1) "backup" = Some e1 /\ Cron.Spec e1 = "0 * * * *" /\
      registered (sc s3) "backup" = Some e3 /\ Cron.Spec e3 = "0 * * * *") /\
  size (jobs (sc s3)) = size (jobs (sc s1)) /\
  length (Cron.entries (cron (sc s3))) = length (Cron.entries (cron (sc s1))).
Proof.
  intros s1 s2 s3.
  assert (Hon : asksFor (hourly "true") "true" "0 * * * *") by by repeat split.
  assert (Hoff : asksFor (hourly "false") "false" "0 * * * *") by by repeat split.
  pose proof (crudJob_enable_toggle "backup" "0 * * * *" toggled
                (hourly "true") (hourly "false") (hourly "true")
                (snd (docker_Service "backup" (world toggled)))
                (world s1) (snd (docker_Service "backup" (world s1)))
                (world s2) (snd (docker_Service "backup" (world s2)))
                registry_ok_New eq_refl Hon Hoff Hon eq_refl eq_refl eq_refl)
    as (_ & _ & _ & Hoff2 & Hsame & _ & Hsize & Hlen & _).
  repeat split; assumption.
Defined.

(** C9 at the scripted daemon: no service "ghost" is registered and a task
    is listed for it. *)
Lemma WaitForEnd_unregistered_panics_witness :
  jobs (sc quiet) !! "ghost" = None /\
  fst (WaitForEnd 5 "ghost" [] quiet) = Panics.
Proof.
  split; [reflexivity |].
  apply (WaitForEnd_unregistered_panics 5 "ghost" [] quiet [A]
           (listed 1 (world quiet)) A);
    [reflexivity | reflexivity | by left | apply not_elem_of_nil].
Defined.

(** C10 at the scripted daemon, as the program has it: "report" has no
    event.timeout label, so its EventTimeout is the empty string; task A,
    outside the empty baseline, has just started and is still running at
    the one poll the wait makes. *)
Lemma WaitForEnd_unparsable_timeout_witness :
  (exists e job, registered (sc (startedUntimed [([A], None)])) "report" = Some e
                 /\ Cron.EJob e = Some job /\ EventTimeout job = "") /\
  fst (WaitForEnd 1 "report" [] (startedUntimed [([A], None)]))
    = Returns ("", Some (errors.New "Timeout")).
Proof.
  split; [by do 2 eexists |].
  set (s := startedUntimed [([A], None)]).
  eassert (Hwc : workerOfEntry 1 (sc s) = Returns _) by reflexivity.
  assert (Hj : jobs (sc s) !! "report" = Some 1) by reflexivity.
  assert (Hl : docker_TaskList "report" (world s)
               = (([A], None), listed 1 (world s))) by reflexivity.
  assert (Hp : docker_TaskList "report" (listed 1 (world s))
               = (([A], None), listed 2 (world s))) by reflexivity.
  assert (Hc : time_Now (listed 1 (world s)) <= time_Now (listed 2 (world s)))
    by (vm_compute; discriminate).
  destruct (WaitForEnd_unparsable_timeout 0 "report" [] s 1 _ [A] _ A [A] None _
              Hj Hwc (or_introl eq_refl) Hl
              (list_elem_of_here _ _) (not_elem_of_nil _) Hp Hc)
    as (_ & y & Hy & Hw).
  assert (y = A) as -> by (by inversion Hy).
  exact (f_equal fst Hw).
Defined.

(** C10 as the specification has it fails at the scripted daemon: "report"
    has no event.timeout label, so its EventTimeout is the empty string and
    the timeout is zero; task A, outside the empty baseline, is already
    Complete at the one poll the wait makes. The wait returns the task's
    logs with a nil error, not the error "Timeout". *)
Lemma WaitForEnd_unparsable_timeout_counterexample :
  (exists e job, registered (sc finishedUntimed) "report" = Some e
                 /\ Cron.EJob e = Some job /\ EventTimeout job = ""
                 /\ eventTimeout job = 0) /\
  task "A" TaskStateComplete
    ∈ fst (fst (docker_TaskList "report" (world finishedUntimed))) /\
  forall fuel,
    fst (WaitForEnd fuel "report" [] finishedUntimed)
      = Returns ("report done", None) /\
    fst (WaitForEnd fuel "report" [] finishedUntimed)
      <> Returns ("", Some (errors.New "Timeout")).
Proof.
  split; [by do 2 eexists |]. split; [by left |].
  intros fuel.
  assert (Hw : fst (WaitForEnd fuel "report" [] finishedUntimed)
               = Returns ("report done", None)) by reflexivity.
  split; [exact Hw |]. rewrite Hw. discriminate.
Qed.

(** C1 at the scripted daemon, as the program has it: only the baseline
    task A is listed. *)
Lemma WaitForEnd_no_new_task_witness :
  fst (WaitForEnd 10 "backup" [A] quiet)
    = Returns ("", Some (errors.New "Не найден список задач")).
Proof.
  assert (Hl : docker_TaskList "backup" (world quiet)
               = (([A], None), listed 1 (world quiet))) by reflexivity.
  rewrite (WaitForEnd_no_new_task 10 "backup" [A] quiet [A] _
             (registry_ok_started _ _) Hl); [done |].
  intros x Hx. apply list_elem_of_singleton in Hx as ->. by left.
Defined.

(** C3 at the scripted daemon, as the program has it: baseline {A, B}, task C
    is the one watched and the third poll shows it Complete. *)
Lemma WaitForEnd_watched_task_terminal_witness :
  fst (WaitForEnd 3 "backup" [A; B] thirdPoll) = Returns ("backup done", None).
Proof.
  set (s := thirdPoll).
  set (C := task "C" TaskStatePreparing).
  assert (Hwc : workerOfEntry 1 (sc s) = Returns hourlyJob) by reflexivity.
  assert (Hj : jobs (sc s) !! "backup" = Some 1) by reflexivity.
  assert (Hl : docker_TaskList "backup" (world s)
               = (([A; B; C], None), listed 1 (world s))) by reflexivity.
  assert (Hx : find (isNew (baselineKeys [A; B])) [A; B; C] = Some C)
    by reflexivity.
  assert (Hidle : afterIdlePolls 2 "backup" (tkID C)
                    (time_Now (listed 1 (world s)) + eventTimeout hourlyJob)
                    (listed 1 (world s))
                  = Some (listed 3 (world s))) by reflexivity.
  assert (Hp : docker_TaskList "backup" (listed 3 (world s))
               = (([A; B] ++ task "C" TaskStateComplete :: [], None),
                  listed 4 (world s))) by reflexivity.
  destruct (WaitForEnd_watched_task_terminal "backup" [A; B] s 1 _ _ _ C 2 _
              [A; B] (task "C" TaskStateComplete) [] None
              (listed 4 (world s)) 3 Hj Hwc Hl Hx Hidle) as [Hc _];
    [by vm_compute | exact Hp | | reflexivity | lia |].
  - intros t Ht. apply elem_of_cons in Ht as [-> | Ht]; [done |].
    apply list_elem_of_singleton in Ht as ->. done.
  - destruct (Hc eq_refl) as [Hr _]. exact Hr.
Defined.

(** C6 at the scripted daemon, as the program has it: "backup" expects the
    key "s3cret", the request brings "wrong", and only the baseline task A
    is listed. *)
Lemma handle_wrong_key_witness :
  runCount (trace (snd (handle 5 "backup" "wrong" quiet))) = runCount (trace quiet) /\
  exists msg, fst (handle 5 "backup" "wrong" quiet) = Returns (500, msg).
Proof.
  set (s := quiet).
  assert (Hwc : workerOfEntry 1 (sc s) = Returns hourlyJob) by reflexivity.
  assert (Hj : jobs (sc s) !! "backup" = Some 1) by reflexivity.
  assert (Hb : Tasks "backup" (world s) = (([A], None), listed 1 (world s)))
    by reflexivity.
  assert (Hl : docker_TaskList "backup"
                 (time_Sleep (5 * 10 ^ 9) (listed 1 (world s)))
               = (([A], None),
                  listed 1 (time_Sleep (5 * 10 ^ 9) (listed 1 (world s)))))
    by reflexivity.
  assert (Hkey : EventRunKey hourlyJob <> "wrong") by discriminate.
  destruct (handle_wrong_key 5 "backup" "wrong" s 1 _ Hj Hwc eq_refl Hkey)
    as (_ & _ & Hcount & _ & Herr).
  split; [exact Hcount |].
  apply (Herr [A] _ [A] None _ Hb Hl).
  right. intros x Hx. apply list_elem_of_singleton in Hx as ->. by left.
Defined.

(** ** Where the program departs from the specification *)

(** C1 as stated fails: "backup" is registered with a timeout of three
    seconds, the baseline is {A} and no other task is ever listed; the wait
    does not return "Timeout" but the error "Не найден список задач", and it
    does so one second after the call, before the timeout has elapsed. *)
Lemma WaitForEnd_timeout_counterexample :
  taskLists (world quiet) = [([A], None)] /\
  eventTimeout hourlyJob = 3 * second /\
  (forall fuel,
      fst (WaitForEnd fuel "backup" [A] quiet)
        = Returns ("", Some (errors.New "Не найден список задач")) /\
      fst (WaitForEnd fuel "backup" [A] quiet)
        <> Returns ("", Some (errors.New "Timeout")) /\
      time_Now (world (snd (WaitForEnd fuel "backup" [A] quiet)))
        - time_Now (world quiet) = second).
Proof.
  split; [reflexivity |]. split; [reflexivity |].
  intros fuel. by repeat split.
Qed.

(** C3 as stated fails: with an empty baseline, tasks A and B are both new;
    B is Complete at every listing, but the wait watches A alone, never
    returns B's logs and ends with "Timeout". *)
Lemma WaitForEnd_sibling_counterexample :
  taskLists (world sibling) = [([A; task "B" TaskStateComplete], None)] /\
  fst (docker_TaskLogs "B" (world sibling)) = ("backup done", None) /\
  fst (WaitForEnd 10 "backup" [] sibling)
    = Returns ("", Some (errors.New "Timeout")) /\
  (forall fuel,
      fst (WaitForEnd fuel "backup" [] sibling) <> Returns ("backup done", None)).
Proof.
  split; [reflexivity |]. split; [reflexivity |]. split; [by vm_compute |].
  intros fuel. do 4 (destruct fuel as [| fuel]; [by vm_compute |]).
  by vm_compute.
Qed.

(** C6 as stated fails: "backup" has event runs enabled with the key
    "s3cret"; a request with the key "wrong" runs nothing, and yet, a task
    started by the schedule having completed in the meantime, the answer is
    200 with that task's logs and not an error. *)
Lemma handle_wrong_key_counterexample :
  workerOfEntry 1 (sc overlapped) = Returns hourlyJob /\
  EventRun hourlyJob = true /\
  EventRunKey hourlyJob <> "wrong" /\
  runCount (trace (snd (handle 10 "backup" "wrong" overlapped))) = 0%nat /\
  fst (handle 10 "backup" "wrong" overlapped) = Returns (200, "backup done").
Proof.
  split; [reflexivity |]. split; [reflexivity |]. split; [discriminate |].
  split; by vm_compute.
Qed.

(** C2 fails on the program: a replicas label of "0", and one that is not a
    number, are logged as errors, but the value [strconv.ParseUint] returned
    with the failure, zero, is what the registered job carries; the default
    of one is gone. *)
Theorem crudJob_replicas_below_one :
  (exists e job,
      registered (sc (reconciled (replicas "0"))) "backup" = Some e /\
      Cron.EJob e = Some job /\ Replicas job = 0) /\
  Log Error "backup"
      "swarm.cronjob.replicas must be greater than or equal to one"
    ∈ trace (reconciled (replicas "0")) /\
  (exists e job,
      registered (sc (reconciled (replicas "many"))) "backup" = Some e /\
      Cron.EJob e = Some job /\ Replicas job = 0) /\
  cannotParse "backup" "many" "swarm.cronjob.replicas"
    ∈ trace (reconciled (replicas "many")).
Proof.
  split; [by do 2 eexists |]. split; [vm_compute; left |].
  split; [by do 2 eexists |]. vm_compute; left.
Qed.


(** * Further properties of the reconciler *)

Section Reconciling.

Context `{GoLib} `{Docker W}.

Lemma registered_removeJob_ne s name id n :
  registry_ok s -> jobs s !! name = Some id -> n <> name ->
  registered (removeJob name id s) n = registered s n.
Proof.
  intros Hok Hname Hne. unfold registered.
  pose proof (registry_ok_removeJob _ _ _ Hok Hname) as Hok'.
  cbn [removeJob jobs cron]. rewrite lookup_delete_ne; [| done].
  destruct (jobs s !! n) as [i |] eqn:Hn; [| done].
  destruct (ok_entry _ Hok _ _ Hn) as (e & He & Hid & _).
  rewrite (find_entry i _ e (ok_nodup _ Hok) He Hid).
  apply (find_entry i _ e (ok_nodup _ Hok')); [| done].
  apply Remove_elem. split; [done |]. intros Heq. apply Hne.
  eapply (ok_inj _ Hok); [exact Hn | congruence].
Qed.

Lemma registered_cleared_ne s name n :
  registry_ok s -> n <> name -> registered (cleared name s) n = registered s n.
Proof.
  intros Hok Hne. unfold cleared.
  destruct (jobs s !! name) as [id |] eqn:Hj; [| done].
  by apply registered_removeJob_ne.
Qed.

(** The identifiers of the cron entries are exactly the values of the
    registry, each once: the two have the same number of elements. *)
Lemma registry_ok_size s :
  registry_ok s -> length (Cron.entries (cron s)) = size (jobs s).
Proof.
  intros Hok.
  rewrite <- (length_fmap Cron.ID), <- (length_map_to_list (jobs s)).
  rewrite <- (length_fmap snd (map_to_list (jobs s))).
  apply Permutation_length, NoDup_Permutation.
  - apply (ok_nodup _ Hok).
  - apply NoDup_fmap_2_strong; [| apply NoDup_map_to_list].
    intros [n1 i1] [n2 i2] H1 H2 Heq. cbn in Heq. subst i2.
    apply elem_of_map_to_list in H1, H2.
    by rewrite (ok_inj _ Hok _ _ _ H1 H2).
  - intros i. rewrite !list_elem_of_fmap. split.
    + intros (e & -> & He). destruct (ok_owner _ Hok e He) as [n Hn].
      exists (n, Cron.ID e). split; [done |]. by apply elem_of_map_to_list.
    + intros ([n i'] & -> & Hn). apply elem_of_map_to_list in Hn.
      destruct (ok_entry _ Hok _ _ Hn) as (e & He & Hid & _). eauto.
Qed.

(** X1: a reconcile keeps the registry consistent with the cron engine,
    whatever the daemon answers: every registered service has exactly its
    own entry and no entry is left without a service. *)
Theorem crudJob_keeps_registry_consistent serviceName (s : Sys W) :
  registry_ok (sc s) -> registry_ok (sc (snd (crudJob serviceName s))).
Proof. apply crudJob_registry_ok. Qed.

(** X2: after a reconcile from a consistent registry, the cron engine holds
    as many entries as there are registered services; this is the number
    the event loop logs as "Number of cronjob tasks". *)
Theorem crudJob_entries_match_services serviceName (s : Sys W) :
  registry_ok (sc s) ->
  length (Cron.entries (cron (sc (snd (crudJob serviceName s)))))
  = size (jobs (sc (snd (crudJob serviceName s)))).
Proof. intros Hok. by apply registry_ok_size, crudJob_registry_ok. Qed.

Lemma crudJob_registered_ne serviceName (s : Sys W) n :
  registry_ok (sc s) -> n <> serviceName ->
  registered (sc (snd (crudJob serviceName s))) n = registered (sc s) n.
Proof.
  intros Hok Hne. unfold crudJob.
  destruct (docker_Service serviceName (world s)) as [[service | err] w].
  - destruct (seekLabels _ _ _) as [[job |] out]; [| done].
    destruct (Enable job); cbn [negb].
    + pose proof (registry_ok_cleared serviceName _ Hok) as Hc.
      pose proof (cleared_lookup serviceName (sc s)) as Hl.
      pose proof (registered_register_ne _ serviceName n (Schedule job) job
                    Hc Hl Hne) as Hr.
      rewrite (registered_cleared_ne _ _ _ Hok Hne) in Hr.
      pose proof (registered_cleared_ne _ _ _ Hok Hne) as Hc'.
      unfold cleared in Hr, Hc'. unfold register in Hr. unfold Cron.AddJob.
      destruct (jobs (sc s) !! serviceName) as [jobID |];
        destruct (cron_Parse (Schedule job)); cbn; try done.
    + destruct (jobs (sc s) !! serviceName) as [jobID |] eqn:Hj; cbn; [| done].
      by apply registered_removeJob_ne.
  - destruct (jobs (sc s) !! serviceName) as [jobID |] eqn:Hj; cbn; [| done].
    by apply registered_removeJob_ne.
Qed.

(** X3: a reconcile of one service leaves the registration of every other
    service as it was. *)
Theorem crudJob_other_services serviceName (s : Sys W) n :
  registry_ok (sc s) -> n <> serviceName ->
  registered (sc (snd (crudJob serviceName s))) n = registered (sc s) n.
Proof. apply crudJob_registered_ne. Qed.


(** X5: an enabled service with a schedule the parser accepts, not yet
    registered, gets exactly one new entry: the reconcile returns
    (true, nil), the service is registered under the next identifier with
    its schedule and a job bearing its name, and the cron engine and the
    registry have each grown by one. *)
Theorem crudJob_adds_entry serviceName (s : Sys W) service w :
  registry_ok (sc s) ->
  jobs (sc s) !! serviceName = None ->
  docker_Service serviceName (world s) = (inl service, w) ->
  existsb isScaleDown (svLabels service) = false ->
  labelEnable (svLabels service) = true ->
  cron_Parse (labelSchedule (svLabels service)) = None ->
  fst (crudJob serviceName s) = (true, None) /\
  (exists job,
      registered (sc (snd (crudJob serviceName s))) serviceName
        = Some (Cron.mkEntry (Cron.nextID (cron (sc s)) + 1)
                             (labelSchedule (svLabels service)) (Some job)) /\
      Name job = svName service /\ Enable job = true /\
      Schedule job = labelSchedule (svLabels service)) /\
  length (Cron.entries (cron (sc (snd (crudJob serviceName s)))))
    = S (length (Cron.entries (cron (sc s)))) /\
  size (jobs (sc (snd (crudJob serviceName s)))) = S (size (jobs (sc s))).
Proof.
  intros Hok Hj Hsv Hsd Hen Hparse.
  destruct (seekLabels_service service Hsd) as (job & out & Hs & He & Hsch).
  destruct (seekLabels_fields _ _ _ _ _ Hs) as (Hn & _).
  assert (Hres : fst (crudJob serviceName s) = (true, None) /\
                 sc (snd (crudJob serviceName s))
                 = register serviceName (Schedule job) job (sc s)).
  { unfold crudJob, register. rewrite Hsv, Hs, He, Hen, Hj. cbn [negb].
    unfold Cron.AddJob. by rewrite Hsch, Hparse. }
  destruct Hres as [Hr Hsc]. rewrite Hr, Hsc. split; [done |]. split.
  - exists job. rewrite registered_register by done. rewrite Hsch.
    repeat split; try done. by rewrite He.
  - unfold register. cbn. rewrite length_app. cbn.
    rewrite map_size_insert_None by done. split; lia.
Qed.

(** X6: an update is always remove and recreate. For an enabled service
    that is already registered and whose schedule the parser accepts, the
    reconcile returns (true, nil) even when nothing has changed in the
    labels; the service ends up registered under a new identifier, different
    from the old one, and the number of entries and of registered services
    is what it was. *)
Theorem crudJob_update_replaces_entry serviceName (s : Sys W) service w id :
  registry_ok (sc s) ->
  jobs (sc s) !! serviceName = Some id ->
  docker_Service serviceName (world s) = (inl service, w) ->
  existsb isScaleDown (svLabels service) = false ->
  labelEnable (svLabels service) = true ->
  cron_Parse (labelSchedule (svLabels service)) = None ->
  fst (crudJob serviceName s) = (true, None) /\
  (exists e,
      registered (sc (snd (crudJob serviceName s))) serviceName = Some e /\
      Cron.ID e = Cron.nextID (cron (sc s)) + 1 /\ Cron.ID e <> id /\
      Cron.Spec e = labelSchedule (svLabels service)) /\
  length (Cron.entries (cron (sc (snd (crudJob serviceName s)))))
    = length (Cron.entries (cron (sc s))) /\
  size (jobs (sc (snd (crudJob serviceName s)))) = size (jobs (sc s)).
Proof.
  intros Hok Hj Hsv Hsd Hen Hparse.
  destruct (crudJob_enabled _ _ _ _ Hsv Hsd Hen) as (job & Hsch & Hres).
  rewrite Hsch, Hparse in Hres. cbn zeta in Hres. destruct Hres as [Hr Hsc].
  pose proof (registry_ok_cleared serviceName _ Hok) as Hokc.
  pose proof (cleared_lookup serviceName (sc s)) as Hlc.
  pose proof (registry_ok_register _ serviceName (labelSchedule (svLabels service))
                job Hokc Hlc) as Hokr.
  assert (Hnext : Cron.nextID (cron (cleared serviceName (sc s)))
                  = Cron.nextID (cron (sc s))).
  { unfold cleared. by rewrite Hj. }
  split; [done |]. rewrite Hsc. split; [| split].
  - eexists. rewrite registered_register by done. cbn. rewrite Hnext.
    repeat split; try done.
    destruct (ok_entry _ Hok _ _ Hj) as (e0 & He0 & Hid0 & _).
    pose proof (ok_fresh _ Hok _ He0). cbn. lia.
  - rewrite (registry_ok_size _ Hokr), (registry_ok_size _ Hok).
    unfold register. cbn [jobs]. rewrite map_size_insert_None by done.
    unfold cleared. rewrite Hj. cbn [removeJob jobs].
    rewrite map_size_delete_Some by eauto.
    assert (size (jobs (sc s)) <> 0)%nat; [| lia].
    intros Hz. apply map_size_empty_iff in Hz. rewrite Hz in Hj.
    by rewrite lookup_empty in Hj.
  - unfold register. cbn [jobs]. rewrite map_size_insert_None by done.
    unfold cleared. rewrite Hj. cbn [removeJob jobs].
    rewrite map_size_delete_Some by eauto.
    assert (size (jobs (sc s)) <> 0)%nat; [| lia].
    intros Hz. apply map_size_empty_iff in Hz. rewrite Hz in Hj.
    by rewrite lookup_empty in Hj.
Qed.

(** X7: the only error a reconcile returns is the one of the cron parser.
    When it returns an error, the service was fetched and is enabled and
    not being scaled down, the error is the parser's on its schedule label,
    "changed" is false, and the service is left unregistered. *)
Theorem crudJob_error_is_schedule_error serviceName (s : Sys W) err :
  snd (fst (crudJob serviceName s)) = Some err ->
  fst (fst (crudJob serviceName s)) = false /\
  registered (sc (snd (crudJob serviceName s))) serviceName = None /\
  exists service w,
    docker_Service serviceName (world s) = (inl service, w) /\
    existsb isScaleDown (svLabels service) = false /\
    labelEnable (svLabels service) = true /\
    cron_Parse (labelSchedule (svLabels service)) = Some err.
Proof.
  intros Herr.
  destruct (docker_Service serviceName (world s)) as [[service | e] w] eqn:Hsv.
  - destruct (existsb isScaleDown (svLabels service)) eqn:Hsd.
    { exfalso. revert Herr. unfold crudJob. rewrite Hsv.
      pose proof (seekLabels_scaledown (svName service) _ Hsd
                    (newWorkerJob service)) as Hn.
      destruct (seekLabels _ _ _) as [r out]. cbn in Hn. by subst r. }
    destruct (labelEnable (svLabels service)) eqn:Hen.
    + destruct (crudJob_enabled _ _ _ _ Hsv Hsd Hen) as (job & Hsch & Hres).
      rewrite Hsch in Hres.
      destruct (cron_Parse (labelSchedule (svLabels service))) as [e |] eqn:Hp;
        cbn zeta in Hres; destruct Hres as [Hr Hsc]; rewrite Hr in Herr |- *;
        [| discriminate].
      cbn in Herr. inversion Herr; subst e. split; [done |]. split.
      * rewrite Hsc. unfold registered. by rewrite cleared_lookup.
      * by exists service, w.
    + destruct (crudJob_disabled _ _ _ _ Hsv Hsd Hen) as [Hr _].
      rewrite Hr in Herr. discriminate.
  - exfalso. revert Herr. unfold crudJob. rewrite Hsv.
    by destruct (jobs (sc s) !! serviceName).
Qed.

(** ** Labels: unknown keys, iteration order, rejected values *)

Lemma seekLabel_unknown service k v j :
  knownLabel k = false -> seekLabel service k v j = (Some j, []).
Proof.
  unfold knownLabel. intros Hk.
  repeat (apply orb_false_iff in Hk as [Hk ?]).
  unfold seekLabel.
  repeat match goal with
         | Heq : String.eqb k _ = false |- _ => rewrite Heq; clear Heq
         end.
  done.
Qed.

(** X8: labels the switch has no case for are ignored: dropping them from
    the labels of a service changes neither the job built nor what is
    logged. *)
Theorem seekLabels_unknown_labels_ignored service
    (labels : list (string * string)) j :
  seekLabels service (filter (fun kv => knownLabel (fst kv)) labels) j
  = seekLabels service labels j.
Proof.
  revert j. induction labels as [| [k v] rest IH]; intros j; [done |].
  destruct (knownLabel k) eqn:Hk.
  - rewrite filter_cons_True by (cbn; rewrite Hk; exact I).
    cbn [seekLabels]. destruct (seekLabel service k v j) as [[j' |] out]; [| done].
    by rewrite IH.
  - rewrite filter_cons_False by (cbn; rewrite Hk; exact id).
    cbn [seekLabels]. rewrite (seekLabel_unknown _ _ _ _ Hk), IH.
    by destruct (seekLabels service rest j).
Qed.

Lemma seekLabel_more_fields service k v j j' out :
  seekLabel service k v j = (Some j', out) ->
  SkipRunning j' = (if String.eqb k "swarm.cronjob.skip-running"
                    then fst (strconv.ParseBool v) else SkipRunning j) /\
  EventRun j' = (if String.eqb k "swarm.cronjob.event.enable"
                 then fst (strconv.ParseBool v) else EventRun j) /\
  EventRunKey j' = (if String.eqb k "swarm.cronjob.event.key"
                    then v else EventRunKey j) /\
  RegistryAuth j' = (if String.eqb k "swarm.cronjob.registry-auth"
                     then fst (strconv.ParseBool v) else RegistryAuth j).
Proof.
  unfold seekLabel. intros Hs.
  repeat match goal with
  | Hs : context [String.eqb k ?lit] |- _ =>
      destruct (String.eqb_spec k lit) as [-> | ?]; cbn in Hs
  end;
    try (destruct (strconv.ParseBool v) eqn:?);
    try (destruct (strconv.ParseUint v) eqn:?);
    try (destruct (String.eqb v "true"));
    inversion Hs; subst; cbn;
    repeat match goal with
    | |- context [String.eqb k ?lit] =>
        destruct (String.eqb_spec k lit) as [-> | ?]; try done
    end; auto.
Qed.

Lemma seekLabels_more_fields service labels :
  forall j j' out, seekLabels service labels j = (Some j', out) ->
  SkipRunning j' = orElse (fst ∘ strconv.ParseBool
                     <$> labelOf "swarm.cronjob.skip-running" labels)
                          (SkipRunning j) /\
  EventRun j' = orElse (fst ∘ strconv.ParseBool
                     <$> labelOf "swarm.cronjob.event.enable" labels)
                       (EventRun j) /\
  EventRunKey j' = orElse (labelOf "swarm.cronjob.event.key" labels)
                          (EventRunKey j) /\
  RegistryAuth j' = orElse (fst ∘ strconv.ParseBool
                     <$> labelOf "swarm.cronjob.registry-auth" labels)
                           (RegistryAuth j).
Proof.
  induction labels as [| [k v] rest IH]; cbn [seekLabels labelOf]; intros j j' out Hs.
  - inversion Hs; subst. cbn. auto.
  - destruct (seekLabel service k v j) as [[j1 |] out1] eqn:H1; [| discriminate].
    destruct (seekLabels service rest j1) as [r out2] eqn:H2.
    inversion Hs; subst r.
    destruct (IH _ _ _ H2) as (Ha & Hb & Hc & Hd).
    destruct (seekLabel_more_fields _ _ _ _ _ _ H1) as (Ha1 & Hb1 & Hc1 & Hd1).
    rewrite Ha, Hb, Hc, Hd, Ha1, Hb1, Hc1, Hd1.
    repeat split;
      match goal with
      | |- context [labelOf ?key rest] => destruct (labelOf key rest); cbn; auto
      end;
      match goal with
      | |- context [String.eqb k ?key] => destruct (String.eqb k key); cbn; auto
      end.
Qed.

Lemma labelOf_elem k v (labels : list (string * string)) :
  labelOf k labels = Some v -> (k, v) ∈ labels.
Proof.
  induction labels as [| [k' v'] rest IH]; cbn; [discriminate |].
  destruct (labelOf k rest) as [v0 |].
  - intros Heq. inversion Heq; subst. right. by apply IH.
  - destruct (String.eqb_spec k' k) as [-> | _]; [| discriminate].
    intros Heq. inversion Heq; subst. by left.
Qed.

Lemma labelOf_unique k v (labels : list (string * string)) :
  NoDup labels.*1 -> (k, v) ∈ labels -> labelOf k labels = Some v.
Proof.
  induction labels as [| [k' v'] rest IH]; cbn; intros Hnd Hin.
  - by apply elem_of_nil in Hin.
  - apply NoDup_cons in Hnd as [Hni Hnd].
    apply elem_of_cons in Hin as [Heq | Hin].
    + inversion Heq; subst k' v'.
      destruct (labelOf k rest) as [v0 |] eqn:Hl.
      * exfalso. apply Hni. apply labelOf_elem in Hl.
        by apply (list_elem_of_fmap_2 fst) in Hl.
      * by rewrite String.eqb_refl.
    + by rewrite (IH Hnd Hin).
Qed.

Lemma labelOf_Permutation k (l1 l2 : list (string * string)) :
  l1 ≡ₚ l2 -> NoDup l1.*1 -> labelOf k l1 = labelOf k l2.
Proof.
  intros Hp Hnd.
  assert (Hnd2 : NoDup l2.*1) by by rewrite <- Hp.
  destruct (labelOf k l1) as [v |] eqn:H1.
  - symmetry. apply labelOf_unique; [done |]. rewrite <- Hp.
    by apply labelOf_elem.
  - destruct (labelOf k l2) as [v |] eqn:H2; [| done].
    apply labelOf_elem in H2. rewrite <- Hp in H2.
    by rewrite (labelOf_unique _ _ _ Hnd H2) in H1.
Qed.

Lemma existsb_Permutation {A} (f : A -> bool) (l1 l2 : list A) :
  l1 ≡ₚ l2 -> existsb f l1 = existsb f l2.
Proof.
  intros Hp. apply eq_true_iff_eq. rewrite !existsb_exists.
  split; intros (x & Hx & Hf); exists x; (split; [| done]);
    apply list_elem_of_In; apply list_elem_of_In in Hx.
  - by rewrite <- Hp.
  - by rewrite Hp.
Qed.

(** X9: the job a service's labels give does not depend on the order in
    which the Go map yields them: for labels with distinct keys, any two
    iteration orders build the same job, or both stop at the scale-down
    mark. *)
Theorem seekLabels_order_irrelevant service
    (labels1 labels2 : list (string * string)) j :
  labels1 ≡ₚ labels2 -> NoDup labels1.*1 ->
  fst (seekLabels service labels1 j) = fst (seekLabels service labels2 j).
Proof.
  intros Hp Hnd.
  pose proof (existsb_Permutation isScaleDown _ _ Hp) as Hex.
  destruct (existsb isScaleDown labels1) eqn:Hsd; symmetry in Hex.
  - by rewrite !seekLabels_scaledown.
  - destruct (seekLabels_continue service _ Hsd j) as [j1 Hj1].
    destruct (seekLabels_continue service _ Hex j) as [j2 Hj2].
    destruct (seekLabels service labels1 j) as [r1 out1] eqn:H1.
    destruct (seekLabels service labels2 j) as [r2 out2] eqn:H2.
    cbn in *. subst r1 r2. f_equal.
    destruct (seekLabels_fields _ _ _ _ _ H1) as (Hn1 & He1 & Hs1 & Hr1 & Ht1).
    destruct (seekLabels_fields _ _ _ _ _ H2) as (Hn2 & He2 & Hs2 & Hr2 & Ht2).
    destruct (seekLabels_more_fields _ _ _ _ _ H1) as (Hk1 & Hv1 & Hy1 & Ha1).
    destruct (seekLabels_more_fields _ _ _ _ _ H2) as (Hk2 & Hv2 & Hy2 & Ha2).
    rewrite <- !(labelOf_Permutation _ _ _ Hp Hnd) in *.
    destruct j1, j2. cbn in *. congruence.
Qed.

Lemma seekLabel_logs service k v j j0 :
  snd (seekLabel service k v j) = snd (seekLabel service k v j0).
Proof.
  unfold seekLabel.
  repeat match goal with
  | |- context [String.eqb k ?lit] =>
      destruct (String.eqb_spec k lit) as [-> | ?]; cbn
  end;
    try (destruct (strconv.ParseBool v));
    try (destruct (strconv.ParseUint v));
    try (destruct (String.eqb v "true")); done.
Qed.

(** What the case of one label logs is part of what the loop logs, unless
    the loop stops at a scale-down mark. *)
Lemma seekLabels_logs service labels k v ev :
  existsb isScaleDown labels = false -> (k, v) ∈ labels ->
  forall j j0, ev ∈ snd (seekLabel service k v j0) ->
               ev ∈ snd (seekLabels service labels j).
Proof.
  induction labels as [| [k' v'] rest IH]; intros Hsd Hin j j0 Hev.
  - by apply elem_of_nil in Hin.
  - cbn [existsb] in Hsd. apply orb_false_iff in Hsd as [Hkv Hsd].
    cbn [seekLabels].
    destruct (seekLabel_continue service k' v' j Hkv) as [j1 Hj1].
    destruct (seekLabel service k' v' j) as [[j1' |] out1] eqn:H1; [| discriminate].
    destruct (seekLabels service rest j1') as [r out2] eqn:H2. cbn [snd].
    apply elem_of_app. apply elem_of_cons in Hin as [Heq | Hin].
    + left. inversion Heq; subst k' v'.
      rewrite (seekLabel_logs _ _ _ j0 j), H1 in Hev. exact Hev.
    + right. specialize (IH Hsd Hin j1' j0 Hev). by rewrite H2 in IH.
Qed.

(** X10: an enable label whose value [strconv.ParseBool] rejects (such as
    "yes") does not abort the reconcile: the value is logged as
    unparsable and the service is treated as disabled, so that after the
    reconcile it is not registered. *)
Theorem crudJob_rejected_enable_value serviceName (s : Sys W) service w v e :
  docker_Service serviceName (world s) = (inl service, w) ->
  existsb isScaleDown (svLabels service) = false ->
  labelOf "swarm.cronjob.enable" (svLabels service) = Some v ->
  snd (strconv.ParseBool v) = Some e ->
  fst (crudJob serviceName s)
    = (bool_decide (is_Some (jobs (sc s) !! serviceName)), None) /\
  registered (sc (snd (crudJob serviceName s))) serviceName = None /\
  cannotParse (svName service) v "swarm.cronjob.enable"
    ∈ trace (snd (crudJob serviceName s)).
Proof.
  intros Hsv Hsd Hl He.
  assert (Hfalse : fst (strconv.ParseBool v) = false).
  { revert He. unfold strconv.ParseBool.
    repeat match goal with
           | |- context [if ?b then _ else _] => destruct b
           end; cbn; done. }
  assert (Hen : labelEnable (svLabels service) = false).
  { unfold labelEnable. by rewrite Hl. }
  destruct (crudJob_disabled _ _ _ _ Hsv Hsd Hen) as [Hr Hsc].
  split; [done |]. split.
  { rewrite Hsc. unfold registered. by rewrite cleared_lookup. }
  assert (Hlog : cannotParse (svName service) v "swarm.cronjob.enable"
                 ∈ snd (seekLabels (svName service) (svLabels service)
                                   (newWorkerJob service))).
  { apply (seekLabels_logs _ _ "swarm.cronjob.enable" v _ Hsd
             (labelOf_elem _ _ _ Hl) _ (newWorkerJob service)).
    unfold seekLabel. cbn. destruct (strconv.ParseBool v) as [b err].
    cbn in He. subst err. cbn. by left. }
  destruct (seekLabels_service service Hsd) as (job & out & Hs & Hej & _).
  rewrite Hs in Hlog. cbn in Hlog.
  unfold crudJob. rewrite Hsv, Hs, Hej, Hen. cbn [negb].
  destruct (jobs (sc s) !! serviceName); cbn [snd trace];
    rewrite !elem_of_app; auto.
Qed.

End Reconciling.

(** * Further properties of the completion waiter *)

Section Waiting.

Context `{GoLib} `{Docker W}.

Lemma scanTasks_out xID tl (w : W) r w' out :
  scanTasks xID tl w = Some (r, w', out) ->
  out = [] \/ exists id, out = [Log Error "" ("Cannot get logs for " +:+ id)].
Proof.
  induction tl as [| tsk tl IH]; cbn; [discriminate |].
  destruct (String.eqb (tkID tsk) xID); [| exact IH].
  destruct (tkState tsk); try exact IH.
  - destruct (docker_TaskLogs (tkID tsk) w) as [[logs [err |]] w1];
      intros Hs; inversion Hs; cbn; eauto.
  - intros Hs; inversion Hs; auto.
Qed.

(** What the poll loop appends to the trace; the line of the timer is only
    there when the loop ends on the timer, the deadline reached. *)
Lemma pollLoop_trace fuel name xID deadline :
  forall polled (w : W) tr r w' tr',
    pollLoop fuel name xID deadline polled w tr = (r, w', tr') ->
    exists out,
      tr' = tr ++ out /\
      (Log Error "" "Timeout" ∈ out ->
       r = Returns ("", Some (errors.New "Timeout")) /\ deadline <= time_Now w').
Proof.
  induction fuel as [| fuel IH]; intros polled w tr r w' tr'; cbn [pollLoop].
  - intros Hp. inversion Hp; subst. exists []. rewrite app_nil_r.
    split; [done |]. by intros ?%elem_of_nil.
  - destruct (polled && (deadline <=? time_Now w)) eqn:Hready.
    + apply andb_true_iff in Hready as [_ Hle%Z.leb_le].
      intros Hp. inversion Hp; subst. eexists. split; [done |]. done.
    + destruct (docker_TaskList name w) as [[tl e] w1].
      destruct (scanTasks xID tl w1) as [[[r0 w2] out] |] eqn:Hs; [| apply IH].
      intros Hp. inversion Hp; subst. exists out. split; [done |].
      intros Hin. exfalso.
      destruct (scanTasks_out _ _ _ _ _ _ Hs) as [-> | [id ->]].
      * by apply elem_of_nil in Hin.
      * apply list_elem_of_singleton in Hin. discriminate.
Qed.

(** X11: the wait never reports the timer's "Timeout" early. Whenever a
    wait on a registered service logs the line "Timeout", it returns the
    error "Timeout" and the clock has reached the deadline: the instant the
    first listing returned plus the job's event timeout. *)
Theorem WaitForEnd_timeout_not_before_deadline fuel serviceName baseline
    (s : Sys W) id job added :
  jobs (sc s) !! serviceName = Some id ->
  workerOfEntry id (sc s) = Returns job ->
  trace (snd (WaitForEnd fuel serviceName baseline s)) = trace s ++ added ->
  Log Error "" "Timeout" ∈ added ->
  fst (WaitForEnd fuel serviceName baseline s)
    = Returns ("", Some (errors.New "Timeout")) /\
  time_Now (snd (docker_TaskList serviceName (world s))) + eventTimeout job
    <= time_Now (world (snd (WaitForEnd fuel serviceName baseline s))).
Proof.
  intros Hj Hwc. unfold WaitForEnd. rewrite Hj, Hwc.
  destruct (docker_TaskList serviceName (world s)) as [[lst [e |]] w1]; cbn [snd].
  - cbn. intros Htr Hin. rewrite <- (app_nil_r (trace s)) in Htr at 1.
    apply app_inv_head in Htr. subst. by apply elem_of_nil in Hin.
  - destruct (find _ lst) as [x |].
    + destruct (pollLoop _ _ _ _ _ _ _) as [[r w2] tr3] eqn:Hp.
      destruct (pollLoop_trace _ _ _ _ _ _ _ _ _ _ Hp) as (out & -> & Hout).
      cbn [fst snd trace world]. rewrite <- !app_assoc. intros Htr Hin.
      apply app_inv_head in Htr. subst added. cbn in Hin.
      apply elem_of_cons in Hin as [Hin | Hin]; [discriminate |].
      apply elem_of_cons in Hin as [Hin | Hin]; [discriminate |].
      by apply Hout.
    + cbn. intros Htr Hin. rewrite <- (app_nil_r (trace s)) in Htr at 1.
      apply app_inv_head in Htr. subst. by apply elem_of_nil in Hin.
Qed.

(** The loop ends within the polls the timeout leaves room for, when every
    listing takes at least [delta] of the clock. *)
Lemma pollLoop_returns name xID deadline delta :
  0 < delta ->
  (forall w : W, time_Now w + delta <= time_Now (snd (docker_TaskList name w))) ->
  forall fuel w tr,
    deadline <= time_Now w + (Z.of_nat fuel - 1) * delta -> (0 < fuel)%nat ->
    exists r, fst (fst (pollLoop fuel name xID deadline true w tr)) = Returns r.
Proof.
  intros Hd Hprog. induction fuel as [| fuel IH]; intros w tr Hb Hf; [lia |].
  cbn [pollLoop andb].
  destruct (Z.leb_spec deadline (time_Now w)) as [Hle | Hlt]; [by eexists |].
  pose proof (Hprog w) as Hw.
  destruct (docker_TaskList name w) as [[tl e] w1]. cbn [snd] in Hw.
  destruct (scanTasks xID tl w1) as [[[r0 w2] out] |]; [by eexists |].
  apply IH; nia.
Qed.

(** X12: the wait is bounded. When every task listing takes at least
    [delta > 0] of the clock, a wait on a registered service returns (it
    neither panics nor polls for ever) within one poll more than the event
    timeout leaves room for. *)
Theorem WaitForEnd_always_returns fuel serviceName baseline (s : Sys W)
    id job delta :
  jobs (sc s) !! serviceName = Some id ->
  workerOfEntry id (sc s) = Returns job ->
  0 < delta ->
  (forall w : W,
      time_Now w + delta <= time_Now (snd (docker_TaskList serviceName w))) ->
  eventTimeout job <= (Z.of_nat fuel - 1) * delta ->
  (0 < fuel)%nat ->
  exists r, fst (WaitForEnd fuel serviceName baseline s) = Returns r.
Proof.
  intros Hj Hwc Hd Hprog Hb Hf. unfold WaitForEnd. rewrite Hj, Hwc.
  destruct (docker_TaskList serviceName (world s)) as [[lst [e |]] w1];
    [by eexists |].
  destruct (find _ lst) as [x |]; [| by eexists].
  cbn [pollLoop andb]. pose proof (Hprog w1) as Hw.
  destruct (docker_TaskList serviceName w1) as [[tl e] w2]. cbn [snd] in Hw.
  destruct (scanTasks (tkID x) tl w2) as [[[r0 w3] out] |]; [by eexists |].
  match goal with
  | |- context [pollLoop fuel serviceName ?x ?d true ?w ?tr] =>
      destruct (pollLoop_returns serviceName x d delta Hd Hprog fuel w tr)
        as [r Hr]; [lia | done |];
      destruct (pollLoop fuel serviceName x d true w tr) as [[r' w3] tr3]
  end.
  cbn in *. eauto.
Qed.



(** X14: a completed task whose logs cannot be fetched is still reported
    as a success. After any number [n] of idle polls, a poll made before
    the deadline that shows the watched task Complete while the log request
    fails makes the wait return the empty string with a nil error; the
    failure is only logged. *)
Theorem WaitForEnd_complete_without_logs serviceName baseline (s : Sys W)
    id job lst w1 x n w' pre tsk post e w2 err w3 fuel :
  jobs (sc s) !! serviceName = Some id ->
  workerOfEntry id (sc s) = Returns job ->
  docker_TaskList serviceName (world s) = ((lst, None), w1) ->
  find (isNew (baselineKeys baseline)) lst = Some x ->
  afterIdlePolls n serviceName (tkID x) (time_Now w1 + eventTimeout job) w1
    = Some w' ->
  time_Now w' < time_Now w1 + eventTimeout job ->
  docker_TaskList serviceName w' = ((pre ++ tsk :: post, e), w2) ->
  (forall t, t ∈ pre -> tkID t <> tkID x) ->
  tkID tsk = tkID x ->
  tkState tsk = TaskStateComplete ->
  api_TaskLogs (tkID x) w2 = (inr err, w3) ->
  (n < fuel)%nat ->
  fst (WaitForEnd fuel serviceName baseline s) = Returns ("", None) /\
  Log Error "" ("Cannot get logs for " +:+ tkID x)
    ∈ trace (snd (WaitForEnd fuel serviceName baseline s)).
Proof.
  intros Hj Hwc Hl Hx Hidle Hbefore Hpoll Hpre Hid Hst Hlogs Hfuel.
  unfold WaitForEnd. rewrite Hj, Hwc, Hl, Hx.
  replace (S fuel) with (n + S (fuel - n))%nat by lia.
  destruct (pollLoop_idle n _ _ _ _ _ false Hidle) as [polled' Hskip].
  rewrite Hskip. cbn [pollLoop].
  destruct (Z.leb_spec (time_Now w1 + eventTimeout job) (time_Now w'))
    as [Hle | _]; [lia |].
  rewrite andb_false_r, Hpoll, (scanTasks_terminal _ _ _ _ w2 Hpre Hid), Hst, Hid.
  unfold docker_TaskLogs. rewrite Hlogs. cbn. split; [done |].
  rewrite !elem_of_app. right. by left.
Qed.

(** X15: neither the wait, nor the trigger, nor the whole request ever
    changes the registry or the cron engine. *)
Theorem handle_leaves_registry fuel serviceName key baseline (s : Sys W) :
  sc (snd (WaitForEnd fuel serviceName baseline s)) = sc s /\
  sc (snd (RunJobByEvent serviceName key s)) = sc s /\
  sc (snd (handle fuel serviceName key s)) = sc s.
Proof.
  assert (Hwait : forall tasks (s0 : Sys W),
             sc (snd (WaitForEnd fuel serviceName tasks s0)) = sc s0).
  { intros tasks s0. unfold WaitForEnd.
    destruct (match jobs (sc s0) !! serviceName with Some _ => _ | None => _ end)
      as [wc | |]; try done.
    destruct (docker_TaskList serviceName (world s0)) as [[lst [e |]] w1]; [done |].
    destruct (find _ lst) as [x |]; [| done].
    destruct wc as [job |]; [| done].
    by destruct (pollLoop _ _ _ _ _ _ _) as [[r w2] tr3]. }
  assert (Hrun : forall s0 : Sys W,
             sc (snd (RunJobByEvent serviceName key s0)) = sc s0).
  { intros s0. unfold RunJobByEvent.
    destruct (jobs (sc s0) !! serviceName) as [jobID |]; [| done].
    destruct (workerOfEntry jobID (sc s0)) as [wc | |]; try done.
    destruct (EventRun wc); [| done].
    by destruct (String.eqb (EventRunKey wc) key). }
  split; [apply Hwait |]. split; [apply Hrun |].
  unfold handle. destruct (Tasks serviceName (world s)) as [[tasks [e |]] w1];
    [done |].
  pose proof (Hrun (mkSys (sc s) w1 (trace s))) as Hr.
  destruct (RunJobByEvent _ _ _) as [[[] | |] s2]; cbn [snd sc] in Hr; try done.
  match goal with
  | |- context [WaitForEnd fuel serviceName tasks ?s3] =>
      pose proof (Hwait tasks s3) as Hw;
      destruct (WaitForEnd fuel serviceName tasks s3) as [[[msg [e |]] | |] s4]
  end; cbn [snd sc] in *; congruence.
Qed.

End Waiting.

(** * Further properties of the trigger endpoint *)

Section Triggering.

Context `{GoLib} `{Docker W}.

Lemma workerOfEntry_registered s name id :
  jobs s !! name = Some id ->
  workerOfEntry id s
  = match registered s name with
    | Some e =>
        match Cron.EJob e with Some job => Returns job | None => Panics end
    | None => Panics
    end.
Proof.
  intros Hj. unfold workerOfEntry, Cron.Entry_, registered. rewrite Hj.
  by destruct (find _ _).
Qed.

(** X16: on a consistent registry [RunJobByEvent] fires the job exactly
    when the service is registered, its job takes event runs and the key is
    the job's: then the worker runs once; in every other case nothing is
    run and the cluster is left alone. It never panics there. *)
Theorem RunJobByEvent_fires_iff serviceName key (s : Sys W) :
  registry_ok (sc s) ->
  fst (RunJobByEvent serviceName key s) = Returns tt /\
  match triggered (sc s) serviceName key with
  | Some job =>
      world (snd (RunJobByEvent serviceName key s)) = worker_Run job (world s) /\
      trace (snd (RunJobByEvent serviceName key s)) = trace s ++ [JobRun job]
  | None =>
      world (snd (RunJobByEvent serviceName key s)) = world s /\
      runCount (trace (snd (RunJobByEvent serviceName key s)))
        = runCount (trace s)
  end.
Proof.
  intros Hok. unfold RunJobByEvent, triggered.
  destruct (jobs (sc s) !! serviceName) as [id |] eqn:Hj.
  - destruct (workerOfEntry_ok _ _ _ Hok Hj) as [job Hjob].
    pose proof (workerOfEntry_registered _ _ _ Hj) as Hreg.
    rewrite Hjob in Hreg |- *.
    destruct (registered (sc s) serviceName) as [e |]; [| discriminate].
    destruct (Cron.EJob e) as [job' |]; [| discriminate].
    inversion Hreg; subst job'.
    destruct (EventRun job); cbn [andb].
    + destruct (String.eqb (EventRunKey job) key); unfold logTo;
        cbn [fst snd world trace]; [done |].
      rewrite runCount_app, runCount_Log. split; [done |]. split; [done | lia].
    + unfold logTo. cbn [fst snd world trace].
      rewrite runCount_app, runCount_Log. split; [done |]. split; [done | lia].
  - unfold registered, logTo. rewrite Hj. cbn [fst snd world trace].
    rewrite runCount_app, runCount_Log. split; [done |]. split; [done | lia].
Qed.

Lemma RunJobByEvent_at_most_once serviceName key (s : Sys W) :
  (runCount (trace (snd (RunJobByEvent serviceName key s)))
   <= runCount (trace s) + 1)%nat.
Proof.
  unfold RunJobByEvent, logTo.
  destruct (jobs (sc s) !! serviceName) as [jobID |];
    [| cbn [snd trace]; rewrite runCount_app, runCount_Log; lia].
  destruct (workerOfEntry jobID (sc s)) as [wc | |]; cbn [snd trace]; try lia.
  destruct (EventRun wc);
    [| cbn [snd trace]; rewrite runCount_app, runCount_Log; lia].
  destruct (String.eqb (EventRunKey wc) key); cbn [snd trace];
    rewrite runCount_app; [| rewrite runCount_Log; lia].
  change (runCount [JobRun wc]) with 1%nat. lia.
Qed.

(** X17: a trigger request runs the job at most once, whatever the service,
    the key and the answers of the daemon; and it runs nothing when the
    listing of the baseline tasks fails. *)
Theorem handle_runs_at_most_once fuel serviceName key (s : Sys W) :
  (runCount (trace (snd (handle fuel serviceName key s)))
   <= runCount (trace s) + 1)%nat /\
  (is_Some (snd (fst (Tasks serviceName (world s)))) ->
   trace (snd (handle fuel serviceName key s)) = trace s).
Proof.
  unfold handle.
  destruct (Tasks serviceName (world s)) as [[tasks [e |]] w1]; cbn [fst snd].
  - split; [cbn [snd trace]; lia | done].
  - split; [| by intros [? ?]].
    pose proof (RunJobByEvent_at_most_once serviceName key
                  (mkSys (sc s) w1 (trace s))) as Hr.
    destruct (RunJobByEvent _ _ _) as [[[] | |] s2]; cbn [snd trace] in Hr;
      try exact Hr.
    match goal with
    | |- context [WaitForEnd fuel serviceName tasks ?s3] =>
        pose proof (WaitForEnd_logs_only fuel serviceName tasks s3) as Hw;
        destruct (WaitForEnd fuel serviceName tasks s3) as [[[msg [e |]] | |] s4]
    end; cbn [snd trace] in *; lia.
Qed.

End Triggering.

(** * [normalizeImage] *)

Section Images.

Lemma HasPrefix_sliceTo p :
  forall n s, strings.HasPrefix (sliceTo n s) p = true ->
              strings.HasPrefix s p = true.
Proof.
  induction p as [| c p IH]; intros n s; [by destruct s |].
  destruct n as [| n], s as [| d s]; cbn; try discriminate.
  intros [Hc Hp]%andb_true_iff. rewrite Hc. cbn. by apply (IH n).
Qed.

Lemma Index_lower s p : -1 <= strings.Index s p.
Proof.
  induction s as [| c s IH]; cbn [strings.Index].
  - destruct (strings.HasPrefix "" p); lia.
  - destruct (strings.HasPrefix (String c s) p); [lia |].
    destruct (Z.ltb_spec (strings.Index s p) 0); lia.
Qed.

(** No instance of [p] lies within the part of [s] that comes before its
    first instance. *)
Lemma Index_sliceTo c p :
  forall s i, strings.Index s (String c p) = Z.of_nat i ->
              strings.Index (sliceTo i s) (String c p) = -1.
Proof.
  induction s as [| d s IH]; intros i Hi.
  - by destruct i.
  - destruct i as [| i]; [done |].
    cbn [strings.Index] in Hi.
    destruct (strings.HasPrefix (String d s) (String c p)) eqn:Hp; [lia |].
    destruct (Z.ltb_spec (strings.Index s (String c p)) 0) as [Hn | Hn]; [lia |].
    cbn [sliceTo strings.Index].
    destruct (strings.HasPrefix (String d (sliceTo i s)) (String c p)) eqn:Hp'.
    + apply (HasPrefix_sliceTo _ (S i) (String d s)) in Hp'. congruence.
    + rewrite (IH i) by lia. done.
Qed.

Lemma Index_zero s p : strings.Index s p = 0 -> strings.HasPrefix s p = true.
Proof.
  destruct s as [| c s]; cbn [strings.Index].
  - by destruct (strings.HasPrefix "" p).
  - destruct (strings.HasPrefix (String c s) p); [done |].
    pose proof (Index_lower s p).
    destruct (Z.ltb_spec (strings.Index s p) 0); lia.
Qed.

(** X18: normalising an image reference is idempotent. What it returns
    carries no digest marker "@sha256:" at all, except when the reference
    itself begins with the marker: such a reference is returned whole, with
    every marker it has, as "@sha256:a@sha256:b" is. *)
Theorem normalizeImage_idempotent image :
  normalizeImage (normalizeImage image) = normalizeImage image /\
  (strings.Index (normalizeImage image) "@sha256:" = -1 \/
   (strings.HasPrefix image "@sha256:" = true /\
    normalizeImage image = image)) /\
  normalizeImage "@sha256:a@sha256:b" = "@sha256:a@sha256:b".
Proof.
  assert (Hi : strings.Index (normalizeImage image) "@sha256:" = -1 \/
               (strings.HasPrefix image "@sha256:" = true /\
                normalizeImage image = image)).
  { unfold normalizeImage.
    pose proof (Index_lower image "@sha256:") as Hlow.
    destruct (Z.ltb_spec 0 (strings.Index image "@sha256:")) as [Hpos | Hle].
    - left. apply Index_sliceTo. by rewrite Z2Nat.id by lia.
    - destruct (Z.eq_dec (strings.Index image "@sha256:") 0) as [Hz | Hnz].
      + right. split; [by apply Index_zero | done].
      + left. lia. }
  split; [| by split].
  destruct Hi as [Hi | [_ Hi]].
  - unfold normalizeImage at 1. by rewrite Hi.
  - by rewrite !Hi.
Qed.

Lemma HasPrefix_cons c s p q :
  strings.HasPrefix (String c s) (String p q)
  = Ascii.eqb p c && strings.HasPrefix s q.
Proof. reflexivity. Qed.

Lemma HasPrefix_nil s : strings.HasPrefix s "" = true.
Proof. by destruct s. Qed.

Lemma HasPrefix_app_self p rest : strings.HasPrefix (p +:+ rest) p = true.
Proof.
  induction p as [| c p IH]; [apply HasPrefix_nil |].
  change (String c p +:+ rest) with (String c (p +:+ rest)).
  by rewrite HasPrefix_cons, Ascii.eqb_refl, IH.
Qed.

(** A marker whose first byte does not come again in it cannot begin
    within [name] and end within the marker that follows. *)
Lemma HasPrefix_before_marker a q :
  forall name rest,
    hasByte a q = false ->
    strings.HasPrefix (name +:+ String a rest) q = true ->
    strings.HasPrefix name q = true.
Proof.
  induction q as [| b q IH]; intros name rest Ha Hp; [apply HasPrefix_nil |].
  cbn [hasByte] in Ha. apply orb_false_iff in Ha as [Hab Ha].
  destruct name as [| c name];
    [change ("" +:+ String a rest) with (String a rest) in Hp
    | change (String c name +:+ String a rest)
        with (String c (name +:+ String a rest)) in Hp];
    rewrite HasPrefix_cons in Hp; apply andb_true_iff in Hp as [Hc Hp].
  - apply Ascii.eqb_eq in Hc. subst b. by rewrite Ascii.eqb_refl in Hab.
  - rewrite HasPrefix_cons, Hc. cbn. by apply (IH name rest).
Qed.

Lemma Index_before_marker a q rest :
  hasByte a q = false ->
  forall name,
    strings.Index name (String a q) = -1 ->
    strings.Index (name +:+ String a q +:+ rest) (String a q)
    = Z.of_nat (String.length name).
Proof.
  intros Ha. induction name as [| c name IH]; intros Hi.
  - change ("" +:+ String a q +:+ rest) with (String a q +:+ rest).
    destruct (String a q +:+ rest) eqn:Heq; [discriminate |].
    cbn [strings.Index]. rewrite <- Heq. by rewrite HasPrefix_app_self.
  - cbn [strings.Index] in Hi.
    destruct (strings.HasPrefix (String c name) (String a q)) eqn:Hp; [lia |].
    pose proof (Index_lower name (String a q)).
    destruct (Z.ltb_spec (strings.Index name (String a q)) 0); [| lia].
    change (String c name +:+ String a q +:+ rest)
      with (String c (name +:+ String a (q +:+ rest))).
    cbn [strings.Index].
    destruct (strings.HasPrefix (String c (name +:+ String a (q +:+ rest)))
                                (String a q)) eqn:Hp'.
    + exfalso. rewrite HasPrefix_cons in Hp, Hp'.
      apply andb_true_iff in Hp' as [Hc Hp']. rewrite Hc in Hp. cbn [andb] in Hp.
      by rewrite (HasPrefix_before_marker a q name (q +:+ rest) Ha Hp') in Hp.
    + change (name +:+ String a (q +:+ rest))
        with (name +:+ String a q +:+ rest).
      rewrite IH by lia.
      destruct (Z.ltb_spec (Z.of_nat (String.length name)) 0);
        cbn [String.length]; lia.
Qed.

Lemma sliceTo_app name rest : sliceTo (String.length name) (name +:+ rest) = name.
Proof.
  induction name as [| c name IH]; [by destruct rest |].
  change (String c name +:+ rest) with (String c (name +:+ rest)).
  change (String.length (String c name)) with (S (String.length name)).
  change (sliceTo (S (String.length name)) (String c (name +:+ rest)))
    with (String c (sliceTo (String.length name) (name +:+ rest))).
  by rewrite IH.
Qed.

(** X19: a reference made of a name without digest marker, the marker
    "@sha256:" and a digest is normalised to the name alone; but when the
    name is empty, so that the reference starts with the marker, it is
    returned whole. *)
Theorem normalizeImage_strips_digest name digest :
  strings.Index name "@sha256:" = -1 ->
  normalizeImage (name +:+ "@sha256:" +:+ digest)
  = match name with
    | EmptyString => "@sha256:" +:+ digest
    | String _ _ => name
    end.
Proof.
  intros Hi. unfold normalizeImage.
  rewrite (Index_before_marker "@" "sha256:" digest eq_refl name Hi).
  destruct name as [| c name]; [done |].
  destruct (Z.ltb_spec 0 (Z.of_nat (String.length (String c name))));
    [| cbn [String.length] in *; lia].
  by rewrite Nat2Z.id, sliceTo_app.
Qed.

End Images.


(** * [Run]: the start-up reconcile and the event loop *)

Section Running.

Context `{GoLib} `{Docker W} `{Swarm W}.

Lemma addServices_registry_ok services :
  forall s : Sys W, registry_ok (sc s) -> registry_ok (sc (addServices services s)).
Proof.
  induction services as [| service rest IH]; intros s Hok; [done |].
  cbn [addServices]. pose proof (crudJob_registry_ok (svName service) s Hok) as Hc.
  destruct (crudJob (svName service) s) as [[changed [err |]] s1]; by apply IH.
Qed.

Lemma listen_registry_ok items :
  forall event (s : Sys W),
    registry_ok (sc s) -> registry_ok (sc (snd (listen items event s))).
Proof.
  induction items as [| [attributes | err] rest IH]; intros event s Hok;
    cbn [listen]; try done.
  destruct (mapstructure_Decode attributes event) as [event1 [e |]];
    [by apply IH |].
  pose proof (crudJob_registry_ok (evService event1)
                (logTo (Log Debug (evService event1) "Event triggered") s) Hok)
    as Hc.
  destruct (crudJob (evService event1) _) as [[processed [e |]] s2];
    [by apply IH |].
  destruct processed; by apply IH.
Qed.

(** X20: [Run] keeps the registry consistent with the cron engine through
    the start-up reconcile and through every event the stream delivers,
    whatever the daemon answers and whether or not events decode. *)
Theorem Run_keeps_registry_consistent items (s : Sys W) :
  registry_ok (sc s) -> registry_ok (sc (snd (Run items s))).
Proof.
  intros Hok. unfold Run.
  destruct (docker_ServiceList _ (world s)) as [[services [e |]] w]; [done |].
  apply listen_registry_ok. cbn [logTo sc]. by apply addServices_registry_ok.
Qed.

Lemma listen_not_returned items :
  forall event (s : Sys W) e, fst (listen items event s) <> RunReturned e.
Proof.
  induction items as [| [attributes | err] rest IH]; intros event s e;
    cbn [listen]; try done.
  destruct (mapstructure_Decode attributes event) as [event1 [e1 |]];
    [by apply IH |].
  destruct (crudJob (evService event1) _) as [[processed [e2 |]] s2];
    [by apply IH |].
  destruct processed; by apply IH.
Qed.

Lemma crudJob_trace serviceName (s : Sys W) :
  exists out, trace (snd (crudJob serviceName s)) = trace s ++ out.
Proof.
  unfold crudJob.
  destruct (docker_Service serviceName (world s)) as [[service | err] w].
  - destruct (seekLabels _ _ _) as [[job |] out]; [| by eexists].
    destruct (negb (Enable job)).
    + destruct (jobs (sc s) !! serviceName); by eexists.
    + destruct (jobs (sc s) !! serviceName);
        destruct (Cron.AddJob _ _ _) as [[jobID [err |]] c]; by eexists.
  - destruct (jobs (sc s) !! serviceName); by eexists.
Qed.

Lemma addServices_trace services :
  forall (s : Sys W) ev, ev ∈ trace s -> ev ∈ trace (addServices services s).
Proof.
  induction services as [| service rest IH]; intros s ev Hev; [done |].
  cbn [addServices].
  destruct (crudJob_trace (svName service) s) as [out Hout].
  destruct (crudJob (svName service) s) as [[changed [err |]] s1];
    cbn [snd] in Hout; apply IH; cbn [logTo trace]; rewrite Hout;
    rewrite ?elem_of_app; auto.
Qed.

Lemma listen_trace items :
  forall event (s : Sys W) ev,
    ev ∈ trace s -> ev ∈ trace (snd (listen items event s)).
Proof.
  induction items as [| [attributes | err] rest IH]; intros event s ev Hev;
    cbn [listen]; try done.
  destruct (mapstructure_Decode attributes event) as [event1 [e |]].
  { apply IH. cbn [logTo trace]. rewrite elem_of_app. auto. }
  destruct (crudJob_trace (evService event1)
              (logTo (Log Debug (evService event1) "Event triggered") s))
    as [out Hout].
  destruct (crudJob (evService event1) _) as [[processed [e |]] s2];
    cbn [snd logTo trace] in Hout; [| destruct processed]; apply IH;
    cbn [logTo trace]; rewrite ?Hout, ?elem_of_app; auto.
Qed.

Lemma addServices_app pre rest :
  forall s : Sys W,
    addServices (pre ++ rest) s = addServices rest (addServices pre s).
Proof.
  induction pre as [| service pre IH]; intros s; [done |].
  cbn [app addServices].
  by destruct (crudJob (svName service) s) as [[changed [err |]] s1].
Qed.

Lemma listen_app pre rest :
  forall event (s : Sys W),
    fst (listen pre event s) = RunListening ->
    listen (pre ++ rest) event s
    = listen rest (decoded pre event) (snd (listen pre event s)).
Proof.
  induction pre as [| [attributes | err] pre IH]; intros event s;
    cbn [app listen decoded]; try done.
  destruct (mapstructure_Decode attributes event) as [event1 [e |]];
    cbn [fst]; [by apply IH |].
  destruct (crudJob (evService event1) _) as [[processed [e |]] s2];
    [by apply IH |].
  destruct processed; by apply IH.
Qed.

(** X21: [Run] returns only when the listing of the services fails, with
    the error of the listing, and then before any reconcile: the registry
    and the trace are as they were. A reconcile that fails never makes
    [Run] return, and it is logged: the run's trace has the error line
    "Cannot manage job for service <name>" for every service of the
    start-up listing whose reconcile fails, and the error line "Cannot
    manage job" under the service's name for every event the loop reaches
    and decodes whose reconcile fails. *)
Theorem Run_returns_listing_error items (s : Sys W) e :
  (fst (Run items s) = RunReturned e <->
   snd (fst (docker_ServiceList
               ["swarm.cronjob.enable"; "swarm.cronjob.schedule"] (world s)))
     = Some e) /\
  (fst (Run items s) = RunReturned e ->
   sc (snd (Run items s)) = sc s /\ trace (snd (Run items s)) = trace s) /\
  (forall pre service post w,
      docker_ServiceList
        ["swarm.cronjob.enable"; "swarm.cronjob.schedule"] (world s)
        = ((pre ++ service :: post, None), w) ->
      is_Some (snd (fst (crudJob (svName service)
                 (addServices pre
                    (logTo (Log Debug ""
                              (itoa (length (pre ++ service :: post))
                                 +:+ " scheduled services found through labels"))
                           (atWorld w s)))))) ->
      Log Error "" ("Cannot manage job for service " +:+ svName service)
        ∈ trace (snd (Run items s))) /\
  (forall pre attributes post event1,
      items = pre ++ Message attributes :: post ->
      fst (Run pre s) = RunListening ->
      mapstructure_Decode attributes (decoded pre (mkEvent "" "" ""))
        = (event1, None) ->
      is_Some (snd (fst (crudJob (evService event1)
                 (logTo (Log Debug (evService event1) "Event triggered")
                        (snd (Run pre s)))))) ->
      Log Error (evService event1) "Cannot manage job"
        ∈ trace (snd (Run items s))).
Proof.
  split; [| split; [| split]].
  - unfold Run.
    destruct (docker_ServiceList _ (world s)) as [[services [e0 |]] w];
      cbn [fst snd]; [split; congruence |].
    split; [| done]. intros Hr. by apply listen_not_returned in Hr.
  - unfold Run.
    destruct (docker_ServiceList _ (world s)) as [[services [e0 |]] w];
      cbn [fst snd]; [done |].
    intros Hr. by apply listen_not_returned in Hr.
  - intros pre service post w Hl [err Herr]. unfold Run. rewrite Hl.
    apply listen_trace. cbn [logTo trace]. rewrite !elem_of_app. do 2 left.
    rewrite addServices_app. cbn [addServices].
    destruct (crudJob (svName service) _) as [[changed err0] s1].
    cbn [fst snd] in Herr. subst err0.
    apply addServices_trace. cbn [logTo trace]. rewrite elem_of_app.
    right. by left.
  - intros pre attributes post event1 -> Hpre Hdec [err Herr].
    unfold Run in *.
    destruct (docker_ServiceList _ (world s)) as [[services [e0 |]] w];
      [discriminate |].
    rewrite (listen_app _ _ _ _ Hpre). cbn [listen]. rewrite Hdec.
    destruct (crudJob (evService event1) _) as [[processed err0] s2].
    cbn [fst snd] in Herr. subst err0.
    apply listen_trace. cbn [logTo trace]. rewrite elem_of_app.
    right. by left.
Qed.

Lemma listen_stream_error pre e post :
  forall event (s : Sys W),
    listen (pre ++ StreamError e :: post) event s
      = listen (pre ++ [StreamError e]) event s /\
    fst (listen (pre ++ StreamError e :: post) event s) <> RunListening.
Proof.
  induction pre as [| [attributes | err] rest IH]; intros event s;
    cbn [app listen]; try done.
  destruct (mapstructure_Decode attributes event) as [event1 [e1 |]];
    [by apply IH |].
  destruct (crudJob (evService event1) _) as [[processed [e2 |]] s2];
    [by apply IH |].
  destruct processed; by apply IH.
Qed.

(** X22: an error on the event stream is fatal. Whatever the stream would
    deliver after its first error is never looked at: the outcome and the
    final state are those of the stream cut after the error, and [Run] is
    not left listening. *)
Theorem Run_stream_error_is_fatal pre e post (s : Sys W) :
  Run (pre ++ StreamError e :: post) s = Run (pre ++ [StreamError e]) s /\
  fst (Run (pre ++ StreamError e :: post) s) <> RunListening.
Proof.
  unfold Run.
  destruct (docker_ServiceList _ (world s)) as [[services [e0 |]] w];
    [done |].
  apply listen_stream_error.
Qed.

Lemma addServices_registered_ne services n :
  n ∉ svName <$> services ->
  forall s : Sys W,
    registry_ok (sc s) ->
    registered (sc (addServices services s)) n = registered (sc s) n.
Proof.
  induction services as [| service rest IH]; intros Hn s Hok; [done |].
  rewrite fmap_cons in Hn. apply not_elem_of_cons in Hn as [Hne Hn].
  cbn [addServices].
  pose proof (crudJob_registry_ok (svName service) s Hok) as Hc.
  pose proof (crudJob_registered_ne (svName service) s n Hok Hne) as Hr.
  destruct (crudJob (svName service) s) as [[changed [err |]] s1];
    rewrite (IH Hn) by done; exact Hr.
Qed.

Lemma listen_registered_ne items n :
  forall event (s : Sys W),
    n ∉ eventServices items event ->
    registry_ok (sc s) ->
    registered (sc (snd (listen items event s))) n = registered (sc s) n.
Proof.
  induction items as [| [attributes | err] rest IH]; intros event s Hn Hok;
    cbn [listen eventServices] in *; try done.
  destruct (mapstructure_Decode attributes event) as [event1 [e |]];
    [by rewrite (IH _ _ Hn) |].
  apply not_elem_of_cons in Hn as [Hne Hn].
  pose proof (crudJob_registry_ok (evService event1)
                (logTo (Log Debug (evService event1) "Event triggered") s) Hok)
    as Hc.
  pose proof (crudJob_registered_ne (evService event1)
                (logTo (Log Debug (evService event1) "Event triggered") s)
                n Hok Hne) as Hr.
  destruct (crudJob (evService event1) _) as [[processed [e |]] s2];
    [by rewrite (IH _ _ Hn) |].
  destruct processed; by rewrite (IH _ _ Hn).
Qed.

(** X23: [Run] reconciles the services it is told about and no other: a
    service that is neither listed at start-up nor named by an event that
    decodes keeps the registration it had, through the whole run. *)
Theorem Run_other_services items (s : Sys W) services w n :
  registry_ok (sc s) ->
  docker_ServiceList ["swarm.cronjob.enable"; "swarm.cronjob.schedule"] (world s)
    = ((services, None), w) ->
  n ∉ svName <$> services ->
  n ∉ eventServices items (mkEvent "" "" "") ->
  registered (sc (snd (Run items s))) n = registered (sc s) n.
Proof.
  intros Hok Hl Hn Hev. unfold Run. rewrite Hl.
  rewrite listen_registered_ne; [| done |].
  - cbn [logTo sc]. by rewrite addServices_registered_ne.
  - cbn [logTo sc]. by apply addServices_registry_ok.
Qed.

End Running.

(** * The further properties on the scripted daemon *)

(** X1 at the scripted daemon: "backup" is registered and has just been
    removed from the cluster. *)
Lemma crudJob_keeps_registry_consistent_witness :
  registry_ok (sc gone) /\ registry_ok (sc (snd (crudJob "backup" gone))).
Proof.
  split; [apply registry_ok_started |].
  apply crudJob_keeps_registry_consistent, registry_ok_started.
Defined.

(** X2 at the scripted daemon: "backup" is registered and reconciled
    again. *)
Lemma crudJob_entries_match_services_witness :
  length (Cron.entries (cron (sc (snd (crudJob "backup"
                                         (later [inl (hourly "true")]))))))
  = size (jobs (sc (snd (crudJob "backup" (later [inl (hourly "true")]))))).
Proof.
  apply (crudJob_entries_match_services "backup" (later [inl (hourly "true")])),
        registry_ok_started.
Defined.

(** X3 at the scripted daemon: "backup" is registered when "report" is
    reconciled. *)
Lemma crudJob_other_services_witness :
  is_Some (registered (sc (later [inl untimed])) "backup") /\
  registered (sc (snd (crudJob "report" (later [inl untimed])))) "backup"
  = registered (sc (later [inl untimed])) "backup".
Proof.
  split; [by eexists |].
  by apply (crudJob_other_services "report" (later [inl untimed]) "backup"
              (registry_ok_started _ _)).
Defined.


(** X5 at the scripted daemon: the first reconcile of "backup". *)
Lemma crudJob_adds_entry_witness :
  fst (crudJob "backup" (New (mkWorld 0 [inl (hourly "true")] [] [])))
    = (true, None) /\
  size (jobs (sc (snd (crudJob "backup"
                         (New (mkWorld 0 [inl (hourly "true")] [] [])))))) = 1%nat.
Proof.
  set (s := New (mkWorld 0 [inl (hourly "true")] [] [])).
  assert (Hsv : docker_Service "backup" (world s)
                = (inl (hourly "true"), snd (docker_Service "backup" (world s))))
    by reflexivity.
  assert (Hp : cron_Parse (labelSchedule (svLabels (hourly "true"))) = None)
    by reflexivity.
  destruct (crudJob_adds_entry "backup" s _ _ registry_ok_New eq_refl Hsv
              eq_refl eq_refl Hp) as (Hr & _ & _ & Hsize).
  split; [exact Hr | exact Hsize].
Defined.

(** X6 at the scripted daemon: "backup" is registered under identifier 1
    and reconciled again with the same labels. *)
Lemma crudJob_update_replaces_entry_witness :
  jobs (sc (later [inl (hourly "true")])) !! "backup" = Some 1 /\
  fst (crudJob "backup" (later [inl (hourly "true")])) = (true, None) /\
  exists e,
    registered (sc (snd (crudJob "backup" (later [inl (hourly "true")]))))
               "backup" = Some e /\
    Cron.ID e = 2.
Proof.
  set (s := later [inl (hourly "true")]).
  assert (Hsv : docker_Service "backup" (world s)
                = (inl (hourly "true"), snd (docker_Service "backup" (world s))))
    by reflexivity.
  assert (Hj : jobs (sc s) !! "backup" = Some 1) by reflexivity.
  assert (Hp : cron_Parse (labelSchedule (svLabels (hourly "true"))) = None)
    by reflexivity.
  destruct (crudJob_update_replaces_entry "backup" s _ _ 1
              (registry_ok_started _ _) Hj Hsv eq_refl eq_refl Hp)
    as (Hr & (e & Hreg & Hid & _) & _).
  split; [exact Hj |]. split; [exact Hr |]. exists e. by split.
Defined.

(** X7 at the scripted daemon: "backup" has been given a schedule the
    parser refuses. *)
Lemma crudJob_error_is_schedule_error_witness :
  fst (crudJob "backup" (later [inl misscheduled]))
    = (false, Some "invalid cron expression") /\
  registered (sc (snd (crudJob "backup" (later [inl misscheduled])))) "backup"
    = None.
Proof.
  set (s := later [inl misscheduled]).
  assert (Herr : snd (fst (crudJob "backup" s)) = Some "invalid cron expression")
    by reflexivity.
  destruct (crudJob_error_is_schedule_error "backup" s _ Herr) as (Hc & Hreg & _).
  split; [| exact Hreg].
  rewrite (surjective_pairing (fst (crudJob "backup" s))). by rewrite Hc, Herr.
Defined.

(** X9 at the scripted daemon: the labels of "backup" ranged over in the
    opposite order. *)
Lemma seekLabels_order_irrelevant_witness :
  fst (seekLabels "backup" (svLabels (hourly "true")) (newWorkerJob (hourly "true")))
  = fst (seekLabels "backup" (rev (svLabels (hourly "true")))
                    (newWorkerJob (hourly "true"))).
Proof.
  apply seekLabels_order_irrelevant.
  - apply Permutation_rev.
  - apply (bool_decide_unpack _). by vm_compute.
Defined.

(** X10 at the scripted daemon: "backup" is registered and its enable label
    is now "yes". *)
Lemma crudJob_rejected_enable_value_witness :
  registered (sc (snd (crudJob "backup" (later [inl (hourly "yes")])))) "backup"
    = None /\
  cannotParse "backup" "yes" "swarm.cronjob.enable"
    ∈ trace (snd (crudJob "backup" (later [inl (hourly "yes")]))).
Proof.
  set (s := later [inl (hourly "yes")]).
  assert (Hsv : docker_Service "backup" (world s)
                = (inl (hourly "yes"), snd (docker_Service "backup" (world s))))
    by reflexivity.
  destruct (crudJob_rejected_enable_value "backup" s _ _ "yes" strconv.ErrSyntax
              Hsv eq_refl eq_refl eq_refl) as (_ & Hreg & Hlog).
  split; [exact Hreg | exact Hlog].
Defined.

(** Every listing of the scripted daemon takes one second. *)
Lemma script_listing_takes_time (w : World) :
  time_Now w + second <= time_Now (snd (docker_TaskList "backup" w)).
Proof. destruct w as [c sv [| a [| b tl]] lg]; cbn; lia. Qed.

(** X11 at the scripted daemon: the wait of "backup" on task A, which is
    never seen Complete, logs "Timeout". *)
Lemma WaitForEnd_timeout_not_before_deadline_witness :
  fst (WaitForEnd 10 "backup" [] sibling)
    = Returns ("", Some (errors.New "Timeout")) /\
  time_Now (listed 1 (world sibling)) + 3 * second
    <= time_Now (world (snd (WaitForEnd 10 "backup" [] sibling))).
Proof.
  assert (Hj : jobs (sc sibling) !! "backup" = Some 1) by reflexivity.
  assert (Hwc : workerOfEntry 1 (sc sibling) = Returns hourlyJob) by reflexivity.
  assert (Htr : trace (snd (WaitForEnd 10 "backup" [] sibling))
                = trace sibling
                    ++ [Log Info "" "Новая задача A"; Log Info "" "Timiout - 3s";
                        Log Error "" "Timeout"]) by by vm_compute.
  apply (WaitForEnd_timeout_not_before_deadline 10 "backup" [] sibling 1
           hourlyJob _ Hj Hwc Htr).
  do 2 right. by left.
Defined.

(** X12 at the scripted daemon: five polls are enough for the three
    seconds "backup" allows. *)
Lemma WaitForEnd_always_returns_witness :
  exists r, fst (WaitForEnd 5 "backup" [] sibling) = Returns r.
Proof.
  assert (Hj : jobs (sc sibling) !! "backup" = Some 1) by reflexivity.
  assert (Hwc : workerOfEntry 1 (sc sibling) = Returns hourlyJob) by reflexivity.
  apply (WaitForEnd_always_returns 5 "backup" [] sibling 1 hourlyJob second
           Hj Hwc); [done | apply script_listing_takes_time | by vm_compute | lia].
Defined.

#[local] Existing Instance Steady.docker.


(** X14 at the scripted daemon: task C completes but the daemon has no logs
    for it. *)
Lemma WaitForEnd_complete_without_logs_witness :
  fst (WaitForEnd 1 "backup" []
         (started [([task "C" TaskStatePreparing], None);
                   ([task "C" TaskStateComplete], None)] []))
    = Returns ("", None).
Proof.
  set (s := started [([task "C" TaskStatePreparing], None);
                     ([task "C" TaskStateComplete], None)] []).
  set (C := task "C" TaskStatePreparing).
  assert (Hj : jobs (sc s) !! "backup" = Some 1) by reflexivity.
  assert (Hwc : workerOfEntry 1 (sc s) = Returns hourlyJob) by reflexivity.
  assert (Hl : docker_TaskList "backup" (world s)
               = (([C], None), listed 1 (world s))) by reflexivity.
  assert (Hx : find (isNew (baselineKeys [])) [C] = Some C) by reflexivity.
  assert (Hp : docker_TaskList "backup" (listed 1 (world s))
               = (([] ++ task "C" TaskStateComplete :: [], None),
                  listed 2 (world s))) by reflexivity.
  assert (Hlogs : api_TaskLogs (tkID C) (listed 2 (world s))
                  = (inr "no such task", listed 2 (world s))) by reflexivity.
  destruct (WaitForEnd_complete_without_logs "backup" [] s 1 hourlyJob [C]
              (listed 1 (world s)) C 0 (listed 1 (world s))
              [] (task "C" TaskStateComplete) [] None (listed 2 (world s))
              "no such task" (listed 2 (world s)) 1
              Hj Hwc Hl Hx eq_refl) as [Hr _];
    [by vm_compute | exact Hp | by intros t ?%elem_of_nil | reflexivity
    | reflexivity | exact Hlogs | lia | exact Hr].
Defined.

(** X16 at the scripted daemon: "backup" triggered with its key. *)
Lemma RunJobByEvent_fires_iff_witness :
  triggered (sc quiet) "backup" "s3cret" = Some hourlyJob /\
  trace (snd (RunJobByEvent "backup" "s3cret" quiet))
    = trace quiet ++ [JobRun hourlyJob].
Proof.
  assert (Ht : triggered (sc quiet) "backup" "s3cret" = Some hourlyJob)
    by reflexivity.
  split; [exact Ht |].
  destruct (RunJobByEvent_fires_iff "backup" "s3cret" quiet
              (registry_ok_started _ _)) as [_ Hfire].
  rewrite Ht in Hfire. by destruct Hfire.
Defined.

(** X19 on a tagged reference with a digest. *)
Lemma normalizeImage_strips_digest_witness :
  normalizeImage "nginx:1.25@sha256:4c0fdaa8b6341bfdeca5f18f7837462c80cff90527ee35ef185571e1c327beac"
  = "nginx:1.25".
Proof.
  apply (normalizeImage_strips_digest "nginx:1.25"
           "4c0fdaa8b6341bfdeca5f18f7837462c80cff90527ee35ef185571e1c327beac").
  reflexivity.
Defined.

Import Stream.

(** X20 at the scripted stream: "backup" is found at start-up, then
    disabled by an event; a second event does not decode. *)
Lemma Run_keeps_registry_consistent_witness :
  registry_ok (sc (snd (Run events boot))).
Proof. apply Run_keeps_registry_consistent, registry_ok_New. Defined.

(** X23 at the scripted stream: "report" is registered and is neither
    listed at start-up nor named by an event. *)
Lemma Run_other_services_witness :
  is_Some (registered (sc (startedUntimed [])) "report") /\
  registered (sc (snd (Run events (atWorld (world boot) (startedUntimed [])))))
             "report"
  = registered (sc (startedUntimed [])) "report".
Proof.
  split; [by eexists |].
  set (s := atWorld (world boot) (startedUntimed [])).
  assert (Hl : docker_ServiceList ["swarm.cronjob.enable"; "swarm.cronjob.schedule"]
                 (world s)
               = (([hourly "true"], None),
                  snd (docker_ServiceList [] (world s)))) by reflexivity.
  assert (Hok : registry_ok (sc s)).
  { unfold s, startedUntimed. cbn [atWorld sc].
    apply crudJob_registry_ok, registry_ok_New. }
  apply (Run_other_services events s [hourly "true"] _ "report" Hok Hl).
  - intros Hin. apply list_elem_of_singleton in Hin. discriminate.
  - intros Hin. apply list_elem_of_singleton in Hin. discriminate.
Defined.

(** X21 at the scripted stream: the schedule of "backup" is refused at
    start-up and again at the update; both failures are logged and the run
    goes on listening. *)
Lemma Run_returns_listing_error_witness :
  is_Some (snd (fst (crudJob "backup" misbooted))) /\
  fst (Run update misbooted) = RunListening /\
  Log Error "" "Cannot manage job for service backup"
    ∈ trace (snd (Run update misbooted)) /\
  Log Error "backup" "Cannot manage job" ∈ trace (snd (Run update misbooted)).
Proof.
  destruct (Run_returns_listing_error update misbooted "")
    as (_ & _ & Hstart & Hevent).
  split; [by eexists |]. split; [reflexivity |]. split.
  - assert (Hl : docker_ServiceList
                   ["swarm.cronjob.enable"; "swarm.cronjob.schedule"]
                   (world misbooted)
                 = (([] ++ [misscheduled], None),
                    snd (docker_ServiceList [] (world misbooted))))
      by reflexivity.
    apply (Hstart [] misscheduled [] _ Hl). by eexists.
  - apply (Hevent [] [("name", "backup")] [] (mkEvent "backup" "" ""));
      [reflexivity | reflexivity | reflexivity | by eexists].
Defined.
